(** * Marketing AI Platform: the brand-extraction and generation workflow

    A shallow embedding of the Next.js front end of the platform: the
    [Home] page ([frontend/src/app/page.tsx]), the generation form and the
    download dialog (with [components/ContentGallery.tsx]), the shared
    types and the API client ([types], [lib/api]); and of the format
    exporter of the design specification, whose code is not part of the
    sources.  The properties that the specification states about them
    follow the definitions.

    React state is modelled by explicit state passing: every [useState]
    cell of the [Home] component is a field of [HomeState], every event
    handler is a computation in a small state monad over a [World] that
    also holds what the handlers do to their environment (the wall clock
    read by [Date.now()], the progress states published during an
    extraction, the downloads started in the browser). *)

From Stdlib Require Import ZArith NArith QArith Ascii String List Lia.
From Stdlib Require Import DecimalString DecimalZ Sorted.
From stdpp Require Import base decidable countable list gmap.

Open Scope Z_scope.

(* ===================================================================== *)
(** ** JavaScript strings *)
(* ===================================================================== *)

(** A JavaScript string is a sequence of UTF-16 code units: [s.length]
    counts them and [s.trim()] inspects them one by one. *)
Module JsString.

Definition jsstring : Type := list N.

(** Decoding of the UTF-8 bytes of a literal of this file into UTF-16
    code units, so that the literals of the source can be written as
    they are. *)
Fixpoint utf16_of_utf8 (bs : list N) : jsstring :=
  match bs with
  | [] => []
  | b0 :: r0 =>
      if (b0 <? 128)%N then b0 :: utf16_of_utf8 r0
      else if (b0 <? 224)%N then
        match r0 with
        | b1 :: r1 =>
            N.lor (N.shiftl (N.land b0 31) 6) (N.land b1 63)
              :: utf16_of_utf8 r1
        | [] => []
        end
      else if (b0 <? 240)%N then
        match r0 with
        | b1 :: b2 :: r2 =>
            N.lor (N.shiftl (N.land b0 15) 12)
                  (N.lor (N.shiftl (N.land b1 63) 6) (N.land b2 63))
              :: utf16_of_utf8 r2
        | _ => []
        end
      else
        match r0 with
        | b1 :: b2 :: b3 :: r3 =>
            let cp :=
              N.lor (N.shiftl (N.land b0 7) 18)
                (N.lor (N.shiftl (N.land b1 63) 12)
                   (N.lor (N.shiftl (N.land b2 63) 6) (N.land b3 63))) in
            let v := (cp - 65536)%N in
            (55296 + N.shiftr v 10)%N :: (56320 + N.land v 1023)%N
              :: utf16_of_utf8 r3
        | _ => []
        end
  end.

Definition bytes_of_string (s : string) : list N :=
  List.map N_of_ascii (list_ascii_of_string s).

Definition js (s : string) : jsstring := utf16_of_utf8 (bytes_of_string s).

(** [String.prototype.trim]: the code units that ECMAScript counts as
    white space or line terminators. *)
Definition isWhiteSpace (c : N) : bool :=
  ((9 <=? c) && (c <=? 13) || (c =? 32) || (c =? 160) || (c =? 5760)
   || (8192 <=? c) && (c <=? 8202) || (c =? 8232) || (c =? 8233)
   || (c =? 8239) || (c =? 8287) || (c =? 12288) || (c =? 65279))%N.

Fixpoint trimStart (s : jsstring) : jsstring :=
  match s with
  | [] => []
  | c :: r => if isWhiteSpace c then trimStart r else s
  end.

Definition trimEnd (s : jsstring) : jsstring := rev (trimStart (rev s)).

Definition trim (s : jsstring) : jsstring := trimEnd (trimStart s).

(** Truthiness of a string: every string but the empty one. *)
Definition truthy (s : jsstring) : bool :=
  match s with [] => false | _ :: _ => true end.

(** [Number.prototype.toString] on an integer: its decimal numeral,
    with a leading minus sign below zero.  (ECMAScript switches to
    exponent notation from 1e21 on; every value of [Date.now()] is below
    8.64e15 in absolute value.) *)
Definition toString (n : Z) : jsstring :=
  List.map N_of_ascii
    (list_ascii_of_string (NilEmpty.string_of_int (Z.to_int n))).

End JsString.
Export JsString.

(* ===================================================================== *)
(** ** Data model ([types]) *)
(* ===================================================================== *)

Inductive LogoPosition : Type :=
  top_left | top_right | bottom_left | bottom_right | center.

Inductive LogoSize : Type := small | medium | large.

Module LogoAsset.
Record t : Type := mk {
  id : jsstring;
  url : jsstring;
  position : LogoPosition;
  size : LogoSize;
  opacity : Q
}.
End LogoAsset.

Module ColorPalette.
Record t : Type := mk {
  primary : jsstring;
  secondary : jsstring;
  accent : jsstring;
  background : jsstring;
  text : jsstring
}.
End ColorPalette.

Module Typography.
Record t : Type := mk {
  headingFont : jsstring;
  bodyFont : jsstring;
  headingWeight : jsstring;
  bodyWeight : jsstring
}.
End Typography.

Module BrandDNA.
Record t : Type := mk {
  id : jsstring;
  name : jsstring;
  websiteUrl : jsstring;
  colors : ColorPalette.t;
  typography : Typography.t;
  logo : option LogoAsset.t;
  tone : jsstring;
  keywords : list jsstring;
  industry : jsstring;
  extractedAt : jsstring
}.

(** The object spreads [{ ...b, websiteUrl: u }] and [{ ...b, logo: l }]. *)
Definition with_websiteUrl (b : t) (u : jsstring) : t :=
  mk (id b) (name b) u (colors b) (typography b) (logo b) (tone b)
     (keywords b) (industry b) (extractedAt b).

Definition with_logo (b : t) (l : option LogoAsset.t) : t :=
  mk (id b) (name b) (websiteUrl b) (colors b) (typography b) l (tone b)
     (keywords b) (industry b) (extractedAt b).
End BrandDNA.

Inductive ContentType : Type := image | video.

Inductive Format : Type := png | jpg | webp | pdf | mp4 | mov | webm.

Inductive Quality : Type := standard | hd | q4k.

#[global] Instance ContentType_eq_dec : EqDecision ContentType.
Proof. solve_decision. Defined.
#[global] Instance Format_eq_dec : EqDecision Format.
Proof. solve_decision. Defined.
#[global] Instance Quality_eq_dec : EqDecision Quality.
Proof. solve_decision. Defined.

(** The literal a [Format] stands for, as it is spliced into a file name. *)
Definition formatName (f : Format) : jsstring :=
  match f with
  | png => js "png" | jpg => js "jpg" | webp => js "webp" | pdf => js "pdf"
  | mp4 => js "mp4" | mov => js "mov" | webm => js "webm"
  end.

Module DownloadFormat.
Record t : Type := mk {
  format : Format;
  quality : Quality;
  url : jsstring;
  size : jsstring
}.
End DownloadFormat.

Module GeneratedContent.
(** [platform] is declared as a union of four literals, but
    [handleGenerate] stores whatever string it is given
    ([platform as any]): the field holds a string. *)
Record t : Type := mk {
  id : jsstring;
  type : ContentType;
  platform : jsstring;
  url : jsstring;
  thumbnailUrl : jsstring;
  prompt : jsstring;
  createdAt : jsstring;
  brandId : jsstring;
  downloadFormats : list DownloadFormat.t
}.
End GeneratedContent.

Module Platform.
Record t : Type := mk {
  id : jsstring;
  name : jsstring;
  icon : jsstring;
  aspectRatio : jsstring;
  width : Z;
  height : Z
}.
End Platform.

Definition PLATFORMS_0 : Platform.t :=
  Platform.mk (js "instagram_post") (js "Instagram Post") (js "📸")
    (js "1:1") 1080 1080.

Definition PLATFORMS : list Platform.t :=
  [ PLATFORMS_0;
    Platform.mk (js "instagram_story") (js "Instagram Story") (js "📱")
      (js "9:16") 1080 1920;
    Platform.mk (js "facebook") (js "Facebook Post") (js "📘")
      (js "1.91:1") 1200 630;
    Platform.mk (js "linkedin") (js "LinkedIn Post") (js "💼")
      (js "1.91:1") 1200 627 ].

Inductive GenerationStep : Type :=
  url | extracting | confirm | logo | generate | gallery.

#[global] Instance GenerationStep_eq_dec : EqDecision GenerationStep.
Proof. solve_decision. Defined.

Inductive Stage : Type :=
  | idle | crawling | analyzing_colors | analyzing_fonts | analyzing_tone
  | complete | error.

#[global] Instance Stage_eq_dec : EqDecision Stage.
Proof. solve_decision. Defined.

Module ExtractionStatus.
Record t : Type := mk {
  stage : Stage;
  progress : Z;
  message : jsstring
}.
End ExtractionStatus.

(** A [File] picked in the logo form.  All the code does with it is
    [URL.createObjectURL(file)]; the record holds the object URL the
    browser mints for it. *)
Record File : Type := { objectURL : jsstring }.

(* ===================================================================== *)
(** ** The state of the [Home] component and its environment *)
(* ===================================================================== *)

(** The six [useState] cells of [Home]. *)
Module HomeState.
Record t : Type := mk {
  step : GenerationStep;
  extractionStatus : ExtractionStatus.t;
  brand : option BrandDNA.t;
  generatedContent : list GeneratedContent.t;
  isGenerating : bool;
  isExtracting : bool
}.
End HomeState.

(** A download started by [downloadContent]: the URL that is fetched and
    the name under which the browser saves the blob. *)
Record Download : Type := { fetched : jsstring; savedAs : jsstring }.

Record World : Type := mkWorld {
  home : HomeState.t;
  (** the wall clock, in milliseconds, as [Date.now()] reads it *)
  clock : Z;
  (** the values passed to [setExtractionStatus], oldest first: each one is
      rendered by [ExtractionProgress] during the pause that follows it *)
  published : list ExtractionStatus.t;
  (** the downloads started so far, oldest first *)
  downloads : list Download
}.

(** Event handlers: state passing over the [World].  A handler runs to
    completion; where the source awaits a timer, the clock advances. *)
Definition Handler (A : Type) : Type := World -> A * World.

#[global] Instance Handler_ret : MRet Handler := fun A a w => (a, w).
#[global] Instance Handler_bind : MBind Handler :=
  fun A B k m w => let '(a, w') := m w in k a w'.

Definition exec {A} (m : Handler A) (w : World) : World := snd (m w).

Definition modifyHome (f : HomeState.t -> HomeState.t) : Handler unit :=
  fun w => (tt, mkWorld (f (home w)) (clock w) (published w) (downloads w)).

Definition getHome : Handler HomeState.t := fun w => (home w, w).

Definition setStep (s : GenerationStep) : Handler unit :=
  modifyHome (fun h =>
    HomeState.mk s (HomeState.extractionStatus h) (HomeState.brand h)
      (HomeState.generatedContent h) (HomeState.isGenerating h)
      (HomeState.isExtracting h)).

Definition setExtractionStatus (s : ExtractionStatus.t) : Handler unit :=
  fun w =>
    let h := home w in
    (tt, mkWorld
           (HomeState.mk (HomeState.step h) s (HomeState.brand h)
              (HomeState.generatedContent h) (HomeState.isGenerating h)
              (HomeState.isExtracting h))
           (clock w) (published w ++ [s]) (downloads w)).

Definition setBrand (b : option BrandDNA.t) : Handler unit :=
  modifyHome (fun h =>
    HomeState.mk (HomeState.step h) (HomeState.extractionStatus h) b
      (HomeState.generatedContent h) (HomeState.isGenerating h)
      (HomeState.isExtracting h)).

(** [setGeneratedContent(prev => f(prev))] *)
Definition setGeneratedContent
    (f : list GeneratedContent.t -> list GeneratedContent.t) : Handler unit :=
  modifyHome (fun h =>
    HomeState.mk (HomeState.step h) (HomeState.extractionStatus h)
      (HomeState.brand h) (f (HomeState.generatedContent h))
      (HomeState.isGenerating h) (HomeState.isExtracting h)).

Definition setIsGenerating (b : bool) : Handler unit :=
  modifyHome (fun h =>
    HomeState.mk (HomeState.step h) (HomeState.extractionStatus h)
      (HomeState.brand h) (HomeState.generatedContent h) b
      (HomeState.isExtracting h)).

Definition setIsExtracting (b : bool) : Handler unit :=
  modifyHome (fun h =>
    HomeState.mk (HomeState.step h) (HomeState.extractionStatus h)
      (HomeState.brand h) (HomeState.generatedContent h)
      (HomeState.isGenerating h) b).

(** [await new Promise(resolve => setTimeout(resolve, ms))] *)
Definition sleep (ms : Z) : Handler unit :=
  fun w => (tt, mkWorld (home w) (clock w + ms) (published w) (downloads w)).

(** [Date.now()] *)
Definition dateNow : Handler Z := fun w => (clock w, w).

(** [for (const x of xs) { body(x) }] *)
Fixpoint forOf {A} (xs : list A) (body : A -> Handler unit) : Handler unit :=
  match xs with
  | [] => mret tt
  | x :: r => body x ;; forOf r body
  end.

(** [lib/api], [downloadContent]: fetch the URL, wrap the blob in a
    temporary link and click it. *)
Definition downloadContent (u filename : jsstring) : Handler unit :=
  fun w =>
    (tt, mkWorld (home w) (clock w) (published w)
           (downloads w ++ [{| fetched := u; savedAs := filename |}])).

(* ===================================================================== *)
(** ** The [Home] page ([app/page.tsx]) *)
(* ===================================================================== *)

(** What the page takes from its environment besides the clock:
    [Date.prototype.toISOString], whose rendering no handler inspects, and
    the three instants at which the module-level [new Date()] of the mock
    data were evaluated. *)
Record Env : Type := {
  toISOString : Z -> jsstring;
  brandLoadedAt : Z;
  content1LoadedAt : Z;
  content2LoadedAt : Z
}.

Section Home.

Variable env : Env.

Definition MOCK_BRAND : BrandDNA.t :=
  BrandDNA.mk (js "demo-1") (js "TechVenture") (js "https://techventure.com")
    (ColorPalette.mk (js "#6366f1") (js "#ec4899") (js "#06b6d4")
       (js "#0f172a") (js "#f8fafc"))
    (Typography.mk (js "Space Grotesk") (js "Inter") (js "700") (js "400"))
    None
    (js "Profesional e Innovador")
    [js "tecnología"; js "innovación"; js "startup"; js "digital";
     js "futuro"]
    (js "Tecnología")
    (toISOString env (brandLoadedAt env)).

Definition MOCK_CONTENT_0 : GeneratedContent.t :=
  GeneratedContent.mk (js "1") image (js "instagram_post")
    (js "https://images.unsplash.com/photo-1611162617474-5b21e879e113?w=600")
    (js "https://images.unsplash.com/photo-1611162617474-5b21e879e113?w=300")
    (js "Promoción de lanzamiento con estilo tech futurista")
    (toISOString env (content1LoadedAt env))
    (js "demo-1") [].

Definition MOCK_CONTENT_1 : GeneratedContent.t :=
  GeneratedContent.mk (js "2") image (js "facebook")
    (js "https://images.unsplash.com/photo-1460925895917-afdab827c52f?w=600")
    (js "https://images.unsplash.com/photo-1460925895917-afdab827c52f?w=300")
    (js "Banner corporativo con datos y métricas")
    (toISOString env (content2LoadedAt env))
    (js "demo-1") [].

Definition MOCK_CONTENT : list GeneratedContent.t :=
  [MOCK_CONTENT_0; MOCK_CONTENT_1].

(** The initial values of the [useState] cells. *)
Definition initialHome : HomeState.t :=
  HomeState.mk url (ExtractionStatus.mk idle 0 (js "")) None [] false false.

Definition initialWorld (now : Z) : World := mkWorld initialHome now [] [].

(** The table [stages] of [handleExtract]. *)
Definition stages : list ExtractionStatus.t :=
  [ ExtractionStatus.mk crawling 20 (js "Escaneando páginas del sitio...");
    ExtractionStatus.mk analyzing_colors 40
      (js "Extrayendo paleta de colores...");
    ExtractionStatus.mk analyzing_fonts 60 (js "Identificando tipografías...");
    ExtractionStatus.mk analyzing_tone 80
      (js "Analizando tono de comunicación...");
    ExtractionStatus.mk complete 100 (js "¡ADN de marca extraído!") ].

Definition handleExtract (u : jsstring) : Handler unit :=
  setIsExtracting true ;;
  setStep extracting ;;
  forOf stages (fun s => setExtractionStatus s ;; sleep 1500) ;;
  setBrand (Some (BrandDNA.with_websiteUrl MOCK_BRAND u)) ;;
  setIsExtracting false ;;
  setStep confirm.

Definition handleConfirmBrand : Handler unit := setStep logo.

Definition handleLogoUpload
    (file : File) (position : LogoPosition) (size : LogoSize)
  : Handler unit :=
  h ← getHome;
  match HomeState.brand h with
  | Some brand =>
      let logoUrl := objectURL file in
      setBrand (Some (BrandDNA.with_logo brand
        (Some (LogoAsset.mk (js "logo-1") logoUrl position size 1%Q)))) ;;
      setStep generate
  | None => mret tt
  end.

(** [brand?.id || ''] *)
Definition brandIdOrEmpty (b : option BrandDNA.t) : jsstring :=
  match b with
  | Some brand => if truthy (BrandDNA.id brand) then BrandDNA.id brand
                  else js ""
  | None => js ""
  end.

Definition handleGenerate
    (platform prompt : jsstring) (type : ContentType) : Handler unit :=
  h ← getHome;
  setIsGenerating true ;;
  sleep 3000 ;;
  idNow ← dateNow;
  createdNow ← dateNow;
  let newContent :=
    GeneratedContent.mk (toString idNow) type platform
      (GeneratedContent.url MOCK_CONTENT_0)
      (GeneratedContent.thumbnailUrl MOCK_CONTENT_0)
      prompt (toISOString env createdNow)
      (brandIdOrEmpty (HomeState.brand h)) [] in
  setGeneratedContent (fun prev => newContent :: prev) ;;
  setIsGenerating false ;;
  setStep gallery.

Definition handleDownload
    (item : GeneratedContent.t) (format : DownloadFormat.t) : Handler unit :=
  now ← dateNow;
  let filename :=
    GeneratedContent.platform item ++ js "_" ++ toString now ++ js "."
      ++ formatName (DownloadFormat.format format) in
  downloadContent (GeneratedContent.url item) filename.

(** *** [renderNavigation] *)

Record NavStep : Type := { nav_id : GenerationStep; nav_label : jsstring;
                           nav_icon : jsstring }.

Definition steps : list NavStep :=
  [ {| nav_id := url; nav_label := js "URL"; nav_icon := js "🌐" |};
    {| nav_id := confirm; nav_label := js "ADN"; nav_icon := js "🧬" |};
    {| nav_id := logo; nav_label := js "Logo"; nav_icon := js "📌" |};
    {| nav_id := generate; nav_label := js "Crear"; nav_icon := js "✨" |};
    {| nav_id := gallery; nav_label := js "Galería"; nav_icon := js "🖼️" |} ].

(** [Array.prototype.findIndex]: the first index at which the predicate
    holds, or -1. *)
Fixpoint findIndexFrom {A} (p : A -> bool) (xs : list A) (i : Z) : Z :=
  match xs with
  | [] => -1
  | x :: r => if p x then i else findIndexFrom p r (i + 1)
  end.

Definition findIndex {A} (p : A -> bool) (xs : list A) : Z :=
  findIndexFrom p xs 0.

(** One rendered step button: the three flags computed for it, and what
    its [onClick] does. *)
Record NavButton : Type := {
  btn_id : GenerationStep;
  isActive : bool;
  isCompleted : bool;
  isClickable : bool
}.

Definition renderNavigation (step : GenerationStep) : list NavButton :=
  let currentIndex := findIndex (fun s => bool_decide (nav_id s = step)) steps in
  imap (fun index s =>
          let isActive := bool_decide (nav_id s = step) in
          let isCompleted := Z.of_nat index <? currentIndex in
          let isClickable := isCompleted || bool_decide (nav_id s = gallery) in
          {| btn_id := nav_id s; isActive := isActive;
             isCompleted := isCompleted; isClickable := isClickable |})
       steps.

(** [onClick={() => isClickable && setStep(s.id)}] *)
Definition navOnClick (b : NavButton) : Handler unit :=
  if isClickable b then setStep (btn_id b) else mret tt.

(** The [items] handed to [ContentGallery] in the gallery step. *)
Definition galleryItems (h : HomeState.t) : list GeneratedContent.t :=
  if (0 <? length (HomeState.generatedContent h))%nat
  then HomeState.generatedContent h
  else MOCK_CONTENT.

End Home.

(* ===================================================================== *)
(** ** The generation form ([components/GenerationForm.tsx]) *)
(* ===================================================================== *)

Module GenerationForm.

(** The three [useState] cells of the form. *)
Record State : Type := {
  selectedPlatform : Platform.t;
  prompt : jsstring;
  contentType : ContentType
}.

Definition initialState : State :=
  {| selectedPlatform := PLATFORMS_0; prompt := js ""; contentType := image |}.

(** [handleSubmit], over the [onGenerate] property of the form. *)
Definition handleSubmit
    (onGenerate : jsstring -> jsstring -> ContentType -> Handler unit)
    (st : State) : Handler unit :=
  if truthy (trim (prompt st))
  then onGenerate (Platform.id (selectedPlatform st)) (prompt st)
         (contentType st)
  else mret tt.

(** [disabled={!prompt.trim() || isGenerating}] of the submit button. *)
Definition submitDisabled (st : State) (isGenerating : bool) : bool :=
  negb (truthy (trim (prompt st))) || isGenerating.

(** The counter under the text area, [{prompt.length}/500]. *)
Definition promptCounter (st : State) : jsstring :=
  toString (Z.of_nat (length (prompt st))) ++ js "/500".

End GenerationForm.

(* ===================================================================== *)
(** ** The gallery and its download dialog ([components/ContentGallery.tsx]) *)
(* ===================================================================== *)

Module DownloadModal.

Definition imageFormats : list DownloadFormat.t :=
  [ DownloadFormat.mk png hd (js "") (js "~2.5 MB");
    DownloadFormat.mk png q4k (js "") (js "~8 MB");
    DownloadFormat.mk jpg hd (js "") (js "~800 KB");
    DownloadFormat.mk webp hd (js "") (js "~400 KB");
    DownloadFormat.mk pdf hd (js "") (js "~3 MB") ].

Definition videoFormats : list DownloadFormat.t :=
  [ DownloadFormat.mk mp4 hd (js "") (js "~15 MB");
    DownloadFormat.mk mp4 q4k (js "") (js "~50 MB");
    DownloadFormat.mk mov hd (js "") (js "~25 MB");
    DownloadFormat.mk webm hd (js "") (js "~10 MB") ].

Definition isVideo (item : GeneratedContent.t) : bool :=
  bool_decide (GeneratedContent.type item = video).

Definition formats (item : GeneratedContent.t) : list DownloadFormat.t :=
  if isVideo item then videoFormats else imageFormats.

(** The buttons of the dialog that start a download: one per entry of
    [formats], and the quick download, which takes [formats[0]]. *)
Inductive Click : Type :=
  | FormatButton (index : nat)
  | QuickDownload.

Definition clicked (item : GeneratedContent.t) (c : Click)
  : option DownloadFormat.t :=
  match c with
  | FormatButton index => formats item !! index
  | QuickDownload => formats item !! 0%nat
  end.

(** [onClick={() => onDownload(item, format)}]; an index past the last
    button is no button. *)
Definition onClick
    (onDownload : GeneratedContent.t -> DownloadFormat.t -> Handler unit)
    (item : GeneratedContent.t) (c : Click) : Handler unit :=
  match clicked item c with
  | Some format => onDownload item format
  | None => mret tt
  end.

End DownloadModal.

(* ===================================================================== *)
(** ** The page as a transition system *)
(* ===================================================================== *)

(** What the user and the environment can do to the page.  Each event is
    taken by the handler that the page wires to the control, provided the
    control is rendered and enabled in the current state. *)
Inductive Event : Type :=
  | Tick (ms : N)
      (** time passes *)
  | SubmitUrl (u : jsstring)
      (** [UrlInput] calls [onSubmit] with the completed URL *)
  | ConfirmBrand
  | UploadLogo (file : File) (position : LogoPosition) (size : LogoSize)
  | SubmitGeneration (form : GenerationForm.State)
  | ClickNav (index : nat)
  | GenerateMore
  | ClickDownload (item : nat) (c : DownloadModal.Click).

Section Page.

Variable env : Env.

(** The handler an event reaches in a page whose state is [h]. *)
Definition handlerOf (h : HomeState.t) (e : Event) : Handler unit :=
  let step := HomeState.step h in
  match e with
  | Tick ms => sleep (Z.of_N ms)
  | SubmitUrl u =>
      if bool_decide (step = url) then handleExtract env u else mret tt
  | ConfirmBrand =>
      if bool_decide (step = confirm) && bool_decide (is_Some (HomeState.brand h))
      then handleConfirmBrand else mret tt
  | UploadLogo file position size =>
      if bool_decide (step = logo)
      then handleLogoUpload file position size else mret tt
  | SubmitGeneration form =>
      if bool_decide (step = generate)
         && negb (GenerationForm.submitDisabled form (HomeState.isGenerating h))
      then GenerationForm.handleSubmit (handleGenerate env) form
      else mret tt
  | ClickNav index =>
      match renderNavigation step !! index with
      | Some b => navOnClick b
      | None => mret tt
      end
  | GenerateMore =>
      if bool_decide (step = gallery) then setStep generate else mret tt
  | ClickDownload i c =>
      if bool_decide (step = gallery) then
        match galleryItems env h !! i with
        | Some item => DownloadModal.onClick handleDownload item c
        | None => mret tt
        end
      else mret tt
  end.

Definition dispatch (e : Event) : Handler unit :=
  h ← getHome; handlerOf h e.

Definition run (evs : list Event) (w : World) : World :=
  fold_left (fun w e => exec (dispatch e) w) evs w.

(** The effects an event can have on the world: it is ignored, or one of
    the handlers of the page runs. *)
Inductive Effect (w : World) : World -> Prop :=
  | effect_none : Effect w w
  | effect_tick (ms : N) : Effect w (exec (sleep (Z.of_N ms)) w)
  | effect_setStep (s : GenerationStep) : Effect w (exec (setStep s) w)
  | effect_extract (u : jsstring) : Effect w (exec (handleExtract env u) w)
  | effect_logo (file : File) (position : LogoPosition) (size : LogoSize) :
      Effect w (exec (handleLogoUpload file position size) w)
  | effect_generate (platform prompt : jsstring) (type : ContentType) :
      Effect w (exec (handleGenerate env platform prompt type) w)
  | effect_download (item : GeneratedContent.t) (format : DownloadFormat.t) :
      Effect w (exec (handleDownload item format) w).

End Page.

(* ===================================================================== *)
(** ** The format exporter *)
(* ===================================================================== *)

#[global] Instance Format_countable : Countable Format.
Proof.
  refine (inj_countable'
    (fun f => match f with
              | png => 0 | jpg => 1 | webp => 2 | pdf => 3
              | mp4 => 4 | mov => 5 | webm => 6
              end%nat)
    (fun n => match n with
              | 0 => png | 1 => jpg | 2 => webp | 3 => pdf
              | 4 => mp4 | 5 => mov | _ => webm
              end%nat) _).
  by intros [].
Defined.

#[global] Instance Quality_countable : Countable Quality.
Proof.
  refine (inj_countable'
    (fun q => match q with standard => 0 | hd => 1 | q4k => 2 end%nat)
    (fun n => match n with 0 => standard | 1 => hd | _ => q4k end%nat) _).
  by intros [].
Defined.

Module FormatExporter.

(** The exporter is the service behind
    [GET /api/generation/download/{contentId}?format=..&quality=..], which
    the client function [getDownloadUrl] of [lib/api] calls.  Only that
    caller is part of the sources; the service is modelled from section 4.6
    of the design specification. *)

(** Modelled from the spec: the ContentAsset of section 3, which the
    sources do not declare (the front end has [GeneratedContent] only):
    id, brandId, contentType, platformId, baseUrl, finalUrl (set once the
    logo is composited), dimensions, durationSeconds (video only),
    createdAt. *)
Module ContentAsset.
Record t : Type := mk {
  id : jsstring;
  brandId : jsstring;
  contentType : ContentType;
  platformId : jsstring;
  baseUrl : jsstring;
  finalUrl : option jsstring;
  width : Z;
  height : Z;
  durationSeconds : option Z;
  createdAt : jsstring
}.
End ContentAsset.

(** The content of a download variant. *)
Definition bytes : Type := list Byte.byte.

(** Modelled from the spec: the key of a DownloadVariant, absent from the
    sources, is (assetId, format, quality). *)
Definition Key : Type := jsstring * Format * Quality.

Definition keyOf (a : ContentAsset.t) (f : Format) (q : Quality) : Key :=
  (ContentAsset.id a, f, q).

(** Modelled from the spec: the one failure of the exporter, absent from
    the sources. *)
Inductive ExportError : Type := UnsupportedFormat.

(** Modelled from the spec: the allowed combinations, which the sources do
    not check anywhere: images {png, jpg, webp, pdf} x {hd, 4k} and videos
    {mp4, mov, webm} x {hd, 4k}. *)
Definition allowed (t : ContentType) (f : Format) (q : Quality) : bool :=
  match q with
  | standard => false
  | hd | q4k =>
      match t, f with
      | image, (png | jpg | webp | pdf) => true
      | video, (mp4 | mov | webm) => true
      | _, _ => false
      end
  end.

(** Modelled from the spec: the exporter's store, absent from the sources:
    the cached variants by key, and the number of transcodes performed so
    far (the call counter of the testable properties). *)
Record Store : Type := mkStore {
  cache : gmap Key bytes;
  transcodes : nat
}.

Definition emptyStore : Store := mkStore ∅ 0.

Section Exporter.

(** The transcoder proper is a collaborator of the exporter. *)
Variable transcode : ContentAsset.t -> Format -> Quality -> bytes.

(** Modelled from the spec: [export(ContentAsset, format, quality)], the
    operation of the absent service.  An unsupported combination fails
    validation before any transcode work starts; the first request for a
    key performs the transcode and stores the result; later requests for
    the key return the cached variant without transcoding again. *)
Definition export (a : ContentAsset.t) (f : Format) (q : Quality) (s : Store)
  : (ExportError + bytes) * Store :=
  if negb (allowed (ContentAsset.contentType a) f q)
  then (inl UnsupportedFormat, s)
  else
    match cache s !! keyOf a f q with
    | Some variant => (inr variant, s)
    | None =>
        let variant := transcode a f q in
        (inr variant,
         mkStore (<[keyOf a f q := variant]> (cache s)) (S (transcodes s)))
    end.

End Exporter.

End FormatExporter.

(* ===================================================================== *)
(** ** Observations used in the statements *)
(* ===================================================================== *)

(** The stage and the percent value of a progress state. *)
Definition stageAndPercent (s : ExtractionStatus.t) : Stage * Z :=
  (ExtractionStatus.stage s, ExtractionStatus.progress s).

(** [currentIndex] of [renderNavigation]. *)
Definition currentIndex (step : GenerationStep) : Z :=
  findIndex (fun s => bool_decide (nav_id s = step)) steps.

(** The logo of the brand the page holds, if it holds a brand with one. *)
Definition currentLogo (h : HomeState.t) : option LogoAsset.t :=
  match HomeState.brand h with
  | Some b => BrandDNA.logo b
  | None => None
  end.

(** The ids of the generated content. *)
Definition contentIds (h : HomeState.t) : list jsstring :=
  List.map GeneratedContent.id (HomeState.generatedContent h).

(** Every id in the generated content is the numeral of a clock reading
    that is not in the future. *)
Definition idsFromPast (w : World) : Prop :=
  forall i : jsstring, In i (contentIds (home w)) ->
    exists t : Z, i = toString t /\ t <= clock w.

(** *** Sample data

    A concrete environment, and the inputs at which the statements below
    are instantiated. *)

Definition sampleEnv : Env :=
  {| toISOString := fun t => js "T" ++ toString t;
     brandLoadedAt := 1000;
     content1LoadedAt := 1001;
     content2LoadedAt := 1002 |}.

Definition sampleLogoFile : File :=
  {| objectURL := js "blob:http://localhost:3000/logo" |}.

Definition sampleForm : GenerationForm.State :=
  {| GenerationForm.selectedPlatform := PLATFORMS_0;
     GenerationForm.prompt := js "Anuncio de nuevo producto innovador";
     GenerationForm.contentType := image |}.

(** A form whose prompt is 501 times the letter a. *)
Definition longPromptForm : GenerationForm.State :=
  {| GenerationForm.selectedPlatform := PLATFORMS_0;
     GenerationForm.prompt := repeat 97%N 501;
     GenerationForm.contentType := image |}.

(** A form whose prompt is a blank, a tab and a line feed. *)
Definition blankPromptForm : GenerationForm.State :=
  {| GenerationForm.selectedPlatform := PLATFORMS_0;
     GenerationForm.prompt := [32%N; 9%N; 10%N];
     GenerationForm.contentType := video |}.

Definition sampleVideo : GeneratedContent.t :=
  GeneratedContent.mk (js "1762110000000") video (js "instagram_story")
    (js "https://images.unsplash.com/photo-1611162617474-5b21e879e113?w=600")
    (js "https://images.unsplash.com/photo-1611162617474-5b21e879e113?w=300")
    (js "Testimonio de cliente satisfecho") (js "T1762110000000")
    (js "demo-1") [].


Definition sampleAsset : FormatExporter.ContentAsset.t :=
  FormatExporter.ContentAsset.mk (js "asset-7") (js "demo-1") video
    (js "instagram_story") (js "https://cdn.example.com/base/asset-7")
    (Some (js "https://cdn.example.com/final/asset-7")) 1080 1920 (Some 5)
    (js "2026-01-01T00:00:00.000Z").

(** A transcoder that writes the asset id followed by the format name. *)
Definition sampleTranscode (a : FormatExporter.ContentAsset.t) (f : Format)
    (q : Quality) : FormatExporter.bytes :=
  List.map (fun n => default Byte.x00 (Byte.of_N n))
    (FormatExporter.ContentAsset.id a ++ formatName f).

(** The straight path through the page up to the generation step, and
    the path that skips the logo step through the gallery button. *)
Definition withLogoPath : list Event :=
  [ SubmitUrl (js "https://example.com"); ConfirmBrand;
    UploadLogo sampleLogoFile bottom_right medium ].

Definition skipLogoPath : list Event :=
  [ SubmitUrl (js "https://example.com"); ClickNav 4; GenerateMore ].

(* ===================================================================== *)
(** ** More string operations *)
(* ===================================================================== *)

(** [s.startsWith(prefix)] *)
Fixpoint startsWith (s prefix : jsstring) {struct prefix} : bool :=
  match prefix, s with
  | [], _ => true
  | _ :: _, [] => false
  | p :: prefix', c :: s' => (c =? p)%N && startsWith s' prefix'
  end.

(** [s.replace(pattern, replacement)] with a string pattern: the first
    occurrence of the pattern, if there is one, is replaced (by a
    replacement that holds no dollar sign, as in all the uses below). *)
Fixpoint replace (pattern replacement s : jsstring) {struct s} : jsstring :=
  if startsWith s pattern then replacement ++ drop (length pattern) s
  else match s with
       | [] => []
       | c :: r => c :: replace pattern replacement r
       end.

(* ===================================================================== *)
(** ** The URL form ([components/UrlInput.tsx]) *)
(* ===================================================================== *)

Module UrlInput.

(** The two [useState] cells of the form. *)
Record State : Type := { url : jsstring; isValid : bool }.

Definition initialState : State := {| url := js ""; isValid := true |}.

Section WithURL.

(** Whether [new URL(s)] returns rather than throws: the URL parser of the
    browser, which the form only asks for this verdict. *)
Variable constructsURL : jsstring -> bool.

Definition validateUrl (value : jsstring) : bool :=
  if negb (truthy value) then true
  else constructsURL
         (if startsWith value (js "http") then value
          else js "https://" ++ value).

(** [handleSubmit], over the [onSubmit] property: the state the form is
    left in, and what is run on the page. *)
Definition handleSubmit (onSubmit : jsstring -> Handler unit) (st : State)
  : State * Handler unit :=
  if negb (truthy (url st)) then (st, mret tt)
  else
    let fullUrl :=
      if startsWith (url st) (js "http") then url st
      else js "https://" ++ url st in
    if validateUrl fullUrl then (st, onSubmit fullUrl)
    else ({| url := url st; isValid := false |}, mret tt).

End WithURL.

(** [onChange] of the text field. *)
Definition onChange (value : jsstring) (st : State) : State :=
  {| url := value; isValid := true |}.

(** [disabled={!url || isLoading}] of the submit button. *)
Definition submitDisabled (st : State) (isLoading : bool) : bool :=
  negb (truthy (url st)) || isLoading.

End UrlInput.

(* ===================================================================== *)
(** ** The progress card ([components/ExtractionProgress.tsx]) *)
(* ===================================================================== *)

Module ExtractionProgress.

Record StageEntry : Type := { id : Stage; label : jsstring; icon : jsstring }.

Definition STAGES : list StageEntry :=
  [ {| id := crawling; label := js "Escaneando sitio web"; icon := js "🌐" |};
    {| id := analyzing_colors; label := js "Extrayendo colores";
       icon := js "🎨" |};
    {| id := analyzing_fonts; label := js "Analizando tipografía";
       icon := js "✒️" |};
    {| id := analyzing_tone; label := js "Detectando tono de marca";
       icon := js "🎯" |};
    {| id := complete; label := js "¡ADN extraído!"; icon := js "✨" |} ].

Definition currentStageIndex (status : ExtractionStatus.t) : Z :=
  findIndex (fun s => bool_decide (id s = ExtractionStatus.stage status))
    STAGES.

(** One line of the stages list, with the three flags computed for it. *)
Record Row : Type := {
  stage : StageEntry;
  isComplete : bool;
  isCurrent : bool;
  isPending : bool
}.

Definition rows (status : ExtractionStatus.t) : list Row :=
  let currentStageIndex := currentStageIndex status in
  imap (fun index stage =>
          {| stage := stage;
             isComplete := Z.of_nat index <? currentStageIndex;
             isCurrent := Z.of_nat index =? currentStageIndex;
             isPending := currentStageIndex <? Z.of_nat index |})
       STAGES.

(** The width of the progress bar and the figure under the list,
    [${status.progress}%]. *)
Definition percentText (status : ExtractionStatus.t) : jsstring :=
  toString (ExtractionStatus.progress status) ++ js "%".

End ExtractionProgress.

(* ===================================================================== *)
(** ** The logo form ([components/LogoUpload.tsx]) *)
(* ===================================================================== *)

Module LogoUpload.

(** The five [useState] cells of the form. *)
Record State : Type := {
  previewUrl : option jsstring;
  selectedFile : option File;
  position : LogoPosition;
  size : LogoSize;
  isDragOver : bool
}.

(** [currentLogo?.url || null] *)
Definition urlOrNull (currentLogo : option LogoAsset.t) : option jsstring :=
  match currentLogo with
  | Some l => if truthy (LogoAsset.url l) then Some (LogoAsset.url l) else None
  | None => None
  end.

Definition initialState (currentLogo : option LogoAsset.t) : State :=
  {| previewUrl := urlOrNull currentLogo; selectedFile := None;
     position := bottom_right; size := medium; isDragOver := false |}.

(** A file as a drop or the file dialog delivers it: the [File], its
    [type], and the object URL that [URL.createObjectURL] mints for the
    preview should the form take the file. *)
Record Delivered : Type := {
  file : File;
  type : jsstring;
  minted : jsstring
}.

Definition handleFile (d : Delivered) (st : State) : State :=
  {| previewUrl := Some (minted d); selectedFile := Some (file d);
     position := position st; size := size st; isDragOver := isDragOver st |}.

Definition setIsDragOver (b : bool) (st : State) : State :=
  {| previewUrl := previewUrl st; selectedFile := selectedFile st;
     position := position st; size := size st; isDragOver := b |}.

Definition setPosition (p : LogoPosition) (st : State) : State :=
  {| previewUrl := previewUrl st; selectedFile := selectedFile st;
     position := p; size := size st; isDragOver := isDragOver st |}.

Definition setSize (s : LogoSize) (st : State) : State :=
  {| previewUrl := previewUrl st; selectedFile := selectedFile st;
     position := position st; size := s; isDragOver := isDragOver st |}.

(** [handleDrop]; [files0] is [e.dataTransfer.files[0]], undefined when
    what is dropped holds no file. *)
Definition handleDrop (files0 : option Delivered) (st : State) : State :=
  let st := setIsDragOver false st in
  match files0 with
  | Some d => if startsWith (type d) (js "image/") then handleFile d st else st
  | None => st
  end.

(** [onChange] of the hidden file input; [files0] is [e.target.files?.[0]]. *)
Definition onChange (files0 : option Delivered) (st : State) : State :=
  match files0 with
  | Some d => handleFile d st
  | None => st
  end.

(** [handleSubmit], over the [onUpload] property. *)
Definition handleSubmit
    (onUpload : File -> LogoPosition -> LogoSize -> Handler unit) (st : State)
  : Handler unit :=
  match selectedFile st with
  | Some f => onUpload f (position st) (size st)
  | None => mret tt
  end.

(** [disabled={!selectedFile || isUploading}] of the confirm button. *)
Definition submitDisabled (st : State) (isUploading : bool) : bool :=
  negb (bool_decide (is_Some (selectedFile st))) || isUploading.

(** What the user can do in the form before confirming. *)
Inductive Action : Type :=
  | Drop (files0 : option Delivered)
  | Choose (files0 : option Delivered)
  | DragOver
  | DragLeave
  | ClickPosition (p : LogoPosition)
  | ClickSize (s : LogoSize).

Definition act (st : State) (a : Action) : State :=
  match a with
  | Drop files0 => handleDrop files0 st
  | Choose files0 => onChange files0 st
  | DragOver => setIsDragOver true st
  | DragLeave => setIsDragOver false st
  | ClickPosition p => setPosition p st
  | ClickSize s => setSize s st
  end.

(** Whether an action hands the form a file that it takes. *)
Definition takesFile (a : Action) : bool :=
  match a with
  | Drop (Some d) => startsWith (type d) (js "image/")
  | Choose (Some _) => true
  | _ => false
  end.

End LogoUpload.

(* ===================================================================== *)
(** ** The gallery ([components/ContentGallery.tsx]) *)
(* ===================================================================== *)

Module ContentGallery.

(** The two [useState] cells of the gallery. *)
Record State : Type := {
  selectedItem : option GeneratedContent.t;
  showDownloadModal : bool
}.

Definition initialState : State :=
  {| selectedItem := None; showDownloadModal := false |}.

Definition handleDownloadClick (item : GeneratedContent.t) (st : State)
  : State :=
  {| selectedItem := Some item; showDownloadModal := true |}.

(** The [onClose] handed to the dialog. *)
Definition onClose (st : State) : State :=
  {| selectedItem := selectedItem st; showDownloadModal := false |}.

(** [showDownloadModal && selectedItem && <DownloadModal item=.. />]: the
    item the dialog is open on, if it is open. *)
Definition modalItem (st : State) : option GeneratedContent.t :=
  if showDownloadModal st then selectedItem st else None.

(** [items.length > 0 ? grid : empty state] *)
Inductive Body : Type :=
  | Grid (items : list GeneratedContent.t)
  | EmptyState.

Definition body (items : list GeneratedContent.t) : Body :=
  if (0 <? length items)%nat then Grid items else EmptyState.

(** The platform badge, [item.platform.replace('_', ' ')]. *)
Definition platformBadge (item : GeneratedContent.t) : jsstring :=
  replace (js "_") (js " ") (GeneratedContent.platform item).

Inductive Action : Type :=
  | ClickDownloadHD (item : GeneratedContent.t)
  | CloseModal.

Definition act (st : State) (a : Action) : State :=
  match a with
  | ClickDownloadHD item => handleDownloadClick item st
  | CloseModal => onClose st
  end.

End ContentGallery.

(* ===================================================================== *)
(** ** More sample data *)
(* ===================================================================== *)

(** From the first page to the logo form without an extraction: the
    gallery button, then the Logo button of the step bar. *)
Definition logoStepWithoutBrand : list Event := [ ClickNav 4; ClickNav 2 ].

(** A stand-in for the URL parser: a string parses when it starts with
    an http or https scheme and a double slash. *)
Definition sampleParser (s : jsstring) : bool :=
  startsWith s (js "http://") || startsWith s (js "https://").

Definition samplePng : LogoUpload.Delivered :=
  {| LogoUpload.file := sampleLogoFile;
     LogoUpload.type := js "image/png";
     LogoUpload.minted := js "blob:http://localhost:3000/preview-1" |}.

Definition samplePdf : LogoUpload.Delivered :=
  {| LogoUpload.file := {| objectURL := js "blob:http://localhost:3000/pdf" |};
     LogoUpload.type := js "application/pdf";
     LogoUpload.minted := js "blob:http://localhost:3000/preview-2" |}.

Definition sampleLogo : LogoAsset.t :=
  LogoAsset.mk (js "logo-1") (js "blob:http://localhost:3000/logo") top_left
    large 1%Q.

(* ===================================================================== *)
(** ** The events the page takes *)
(* ===================================================================== *)

(** [Taken env w e w']: in the world [w] the event [e] leads to [w'].  An
    event whose control is not rendered or not enabled is ignored; an
    event that is taken runs the handler wired to its control. *)
Inductive Taken (env : Env) (w : World) : Event -> World -> Prop :=
  | taken_ignored (e : Event) :
      (forall ms, e <> Tick ms) -> Taken env w e w
  | taken_tick (ms : N) :
      Taken env w (Tick ms) (exec (sleep (Z.of_N ms)) w)
  | taken_extract (u : jsstring) :
      HomeState.step (home w) = url ->
      Taken env w (SubmitUrl u) (exec (handleExtract env u) w)
  | taken_confirm :
      HomeState.step (home w) = confirm ->
      is_Some (HomeState.brand (home w)) ->
      Taken env w ConfirmBrand (exec (setStep logo) w)
  | taken_upload (file : File) (position : LogoPosition) (size : LogoSize) :
      HomeState.step (home w) = logo ->
      Taken env w (UploadLogo file position size)
        (exec (handleLogoUpload file position size) w)
  | taken_generate (form : GenerationForm.State) :
      HomeState.step (home w) = generate ->
      HomeState.isGenerating (home w) = false ->
      forallb isWhiteSpace (GenerationForm.prompt form) = false ->
      Taken env w (SubmitGeneration form)
        (exec (handleGenerate env
                 (Platform.id (GenerationForm.selectedPlatform form))
                 (GenerationForm.prompt form)
                 (GenerationForm.contentType form)) w)
  | taken_nav (index : nat) (b : NavButton) :
      renderNavigation (HomeState.step (home w)) !! index = Some b ->
      isClickable b = true ->
      Taken env w (ClickNav index) (exec (setStep (btn_id b)) w)
  | taken_more :
      HomeState.step (home w) = gallery ->
      Taken env w GenerateMore (exec (setStep generate) w)
  | taken_download (i : nat) (c : DownloadModal.Click)
      (item : GeneratedContent.t) (format : DownloadFormat.t) :
      HomeState.step (home w) = gallery ->
      galleryItems env (home w) !! i = Some item ->
      DownloadModal.clicked item c = Some format ->
      Taken env w (ClickDownload i c) (exec (handleDownload item format) w).

(** The URL form holding a domain whose name starts with http, and one
    holding the first of the examples under the form. *)
Definition httpbinInput : UrlInput.State :=
  {| UrlInput.url := js "httpbin.org"; UrlInput.isValid := true |}.

Definition appleInput : UrlInput.State :=
  {| UrlInput.url := js "apple.com"; UrlInput.isValid := true |}.

(** In the logo form: a position, a size, a dropped pdf, a drag over. *)
Definition fiddlingWithoutFile : list LogoUpload.Action :=
  [ LogoUpload.ClickPosition top_left; LogoUpload.ClickSize large;
    LogoUpload.Drop (Some samplePdf); LogoUpload.DragOver ].

(* ===================================================================== *)
(** * Properties *)
(* ===================================================================== *)

(** ** Strings *)

Lemma trimStart_nil_iff (s : jsstring) :
  trimStart s = [] <-> forallb isWhiteSpace s = true.
Proof.
  induction s as [|c r IH]; simpl; [tauto|].
  destruct (isWhiteSpace c); simpl; [exact IH|].
  split; discriminate.
Qed.

Lemma trimStart_forallb_rev (s : jsstring) :
  forallb isWhiteSpace (rev s) = forallb isWhiteSpace s.
Proof.
  induction s as [|c r IH]; simpl; [reflexivity|].
  rewrite forallb_app, IH; simpl.
  rewrite andb_true_r. apply andb_comm.
Qed.

Lemma trimStart_head (s : jsstring) :
  match trimStart s with
  | [] => forallb isWhiteSpace s = true
  | c :: _ => isWhiteSpace c = false
  end.
Proof.
  induction s as [|c r IH]; simpl; [reflexivity|].
  destruct (isWhiteSpace c) eqn:E; simpl; [exact IH | exact E].
Qed.

(** [s.trim()] is the empty string exactly when [s] holds nothing but
    white space. *)
Lemma trim_nil_iff (s : jsstring) :
  trim s = [] <-> forallb isWhiteSpace s = true.
Proof.
  unfold trim, trimEnd.
  rewrite <- (rev_involutive []) at 1. simpl.
  split.
  - intros H. apply (f_equal (@rev N)) in H.
    rewrite rev_involutive in H. simpl in H.
    apply trimStart_nil_iff in H. rewrite trimStart_forallb_rev in H.
    pose proof (trimStart_head s) as Hh.
    destruct (trimStart s) as [|c r] eqn:E; [exact Hh|].
    simpl in H. rewrite Hh in H. discriminate.
  - intros H. apply trimStart_nil_iff in H. rewrite H. reflexivity.
Qed.

Lemma truthy_trim (s : jsstring) :
  truthy (trim s) = negb (forallb isWhiteSpace s).
Proof.
  destruct (forallb isWhiteSpace s) eqn:E.
  - apply trim_nil_iff in E. rewrite E. reflexivity.
  - destruct (trim s) eqn:T; [|reflexivity].
    apply trim_nil_iff in T. congruence.
Qed.

Lemma N_of_ascii_inj (a b : ascii) : N_of_ascii a = N_of_ascii b -> a = b.
Proof.
  intros H. rewrite <- (ascii_N_embedding a), <- (ascii_N_embedding b).
  now rewrite H.
Qed.

Lemma list_ascii_of_string_inj (s t : string) :
  list_ascii_of_string s = list_ascii_of_string t -> s = t.
Proof.
  intros H. rewrite <- (string_of_list_ascii_of_string s),
    <- (string_of_list_ascii_of_string t). now rewrite H.
Qed.

Lemma map_N_of_ascii_inj (l1 l2 : list ascii) :
  List.map N_of_ascii l1 = List.map N_of_ascii l2 -> l1 = l2.
Proof.
  revert l2. induction l1 as [|a l1 IH]; intros [|b l2] E; simpl in E;
    try discriminate; [reflexivity|].
  injection E as E1 E2. f_equal; [now apply N_of_ascii_inj | now apply IH].
Qed.

(** Two integers with the same decimal numeral are equal. *)
Lemma toString_inj (m n : Z) : toString m = toString n -> m = n.
Proof.
  unfold toString. intros H.
  apply map_N_of_ascii_inj, list_ascii_of_string_inj in H.
  apply DecimalZ.to_int_inj.
  assert (Some (Z.to_int m) = Some (Z.to_int n)) as E.
  { rewrite <- !NilEmpty.isi. now rewrite H. }
  now injection E.
Qed.

(** ** What each handler does to the world *)

Arguments js : simpl never.
Arguments toString : simpl never.

(** Unfolding of the monad and of the state cells, leaving the data alone. *)
Ltac handler_simpl :=
  cbv beta iota zeta delta
    [exec mbind mret Handler_bind Handler_ret setStep setExtractionStatus
     setBrand setGeneratedContent setIsGenerating setIsExtracting modifyHome
     getHome sleep dateNow forOf downloadContent snd fst
     home clock published downloads
     HomeState.step HomeState.extractionStatus HomeState.brand
     HomeState.generatedContent HomeState.isGenerating
     HomeState.isExtracting].

Section HandlerFacts.

Variable env : Env.

Lemma handleExtract_exec (u : jsstring) (w : World) :
  exec (handleExtract env u) w =
  mkWorld
    (HomeState.mk confirm
       (ExtractionStatus.mk complete 100 (js "¡ADN de marca extraído!"))
       (Some (BrandDNA.with_websiteUrl (MOCK_BRAND env) u))
       (HomeState.generatedContent (home w))
       (HomeState.isGenerating (home w)) false)
    (clock w + 7500) (published w ++ stages) (downloads w).
Proof.
  destruct w as [h c p d]. unfold handleExtract, stages. handler_simpl.
  f_equal; [lia|]. now rewrite <- !app_assoc.
Qed.

Lemma handleGenerate_exec (platform prompt : jsstring) (type : ContentType)
    (w : World) :
  exec (handleGenerate env platform prompt type) w =
  mkWorld
    (HomeState.mk gallery (HomeState.extractionStatus (home w))
       (HomeState.brand (home w))
       (GeneratedContent.mk (toString (clock w + 3000)) type platform
          (GeneratedContent.url (MOCK_CONTENT_0 env))
          (GeneratedContent.thumbnailUrl (MOCK_CONTENT_0 env))
          prompt (toISOString env (clock w + 3000))
          (brandIdOrEmpty (HomeState.brand (home w))) []
        :: HomeState.generatedContent (home w))
       false (HomeState.isExtracting (home w)))
    (clock w + 3000) (published w) (downloads w).
Proof.
  destruct w as [h c p d]. unfold handleGenerate. handler_simpl. reflexivity.
Qed.

Lemma handleLogoUpload_exec (file : File) (position : LogoPosition)
    (size : LogoSize) (w : World) :
  exec (handleLogoUpload file position size) w =
  match HomeState.brand (home w) with
  | Some brand =>
      mkWorld
        (HomeState.mk generate (HomeState.extractionStatus (home w))
           (Some (BrandDNA.with_logo brand
              (Some (LogoAsset.mk (js "logo-1") (objectURL file) position
                       size 1%Q))))
           (HomeState.generatedContent (home w))
           (HomeState.isGenerating (home w))
           (HomeState.isExtracting (home w)))
        (clock w) (published w) (downloads w)
  | None => w
  end.
Proof.
  destruct w as [[s x b g ig ie] c p d]. unfold handleLogoUpload.
  handler_simpl. destruct b; reflexivity.
Qed.

Lemma handleDownload_exec (item : GeneratedContent.t)
    (format : DownloadFormat.t) (w : World) :
  exec (handleDownload item format) w =
  mkWorld (home w) (clock w) (published w)
    (downloads w ++
     [{| fetched := GeneratedContent.url item;
         savedAs := GeneratedContent.platform item ++ js "_"
                    ++ toString (clock w) ++ js "."
                    ++ formatName (DownloadFormat.format format) |}]).
Proof. destruct w as [h c p d]. reflexivity. Qed.

Lemma setStep_exec (s : GenerationStep) (w : World) :
  exec (setStep s) w =
  mkWorld
    (HomeState.mk s (HomeState.extractionStatus (home w))
       (HomeState.brand (home w)) (HomeState.generatedContent (home w))
       (HomeState.isGenerating (home w)) (HomeState.isExtracting (home w)))
    (clock w) (published w) (downloads w).
Proof. reflexivity. Qed.

End HandlerFacts.

(* ===================================================================== *)
(** ** Extraction *)
(* ===================================================================== *)

(** C2: every extraction run publishes, after whatever was published
    before it, exactly five progress states, in the stage order crawling,
    analyzing_colors, analyzing_fonts, analyzing_tone, complete, with the
    percent values 20, 40, 60, 80, 100 in that order; the percent sequence
    is non-decreasing, and the run ends on stage complete at exactly 100,
    which is also the status the page is left in. *)
Theorem extraction_progress_sequence (env : Env) (u : jsstring) (w : World) :
  let w' := exec (handleExtract env u) w in
  exists emitted : list ExtractionStatus.t,
    published w' = published w ++ emitted
    /\ List.map stageAndPercent emitted =
         [ (crawling, 20); (analyzing_colors, 40); (analyzing_fonts, 60);
           (analyzing_tone, 80); (complete, 100) ]
    /\ StronglySorted Z.le (List.map ExtractionStatus.progress emitted)
    /\ List.map stageAndPercent (drop 4 emitted) = [ (complete, 100) ]
    /\ (forall s, In s emitted ->
          (ExtractionStatus.progress s = 100
           <-> ExtractionStatus.stage s = complete))
    /\ stageAndPercent (HomeState.extractionStatus (home w'))
         = (complete, 100).
Proof.
  intros w'. subst w'. rewrite handleExtract_exec. exists stages.
  split; [reflexivity|]. split; [reflexivity|].
  split; [unfold stages; cbn; repeat constructor; lia|].
  split; [reflexivity|]. split; [|reflexivity].
  intros s Hs. unfold stages in Hs. cbn in Hs.
  repeat (destruct Hs as [<-|Hs]; [cbn; split; (discriminate || reflexivity)|]).
  destruct Hs.
Qed.

(** C9: for every submitted URL, and whatever state the page was in, the
    extraction stores the same brand: the fixed mock brand (name
    TechVenture, colours #6366f1, #ec4899, #06b6d4, #0f172a, #f8fafc, no
    logo) with websiteUrl replaced by the submitted URL.  Nothing else
    enters the result: the handler takes no crawled content at all. *)
Theorem extraction_yields_mock_brand (env : Env) (u : jsstring) (w : World) :
  exists b : BrandDNA.t,
    HomeState.brand (home (exec (handleExtract env u) w)) = Some b
    /\ b = BrandDNA.with_websiteUrl (MOCK_BRAND env) u
    /\ BrandDNA.websiteUrl b = u
    /\ BrandDNA.id b = BrandDNA.id (MOCK_BRAND env)
    /\ BrandDNA.name b = js "TechVenture"
    /\ BrandDNA.colors b =
         ColorPalette.mk (js "#6366f1") (js "#ec4899") (js "#06b6d4")
           (js "#0f172a") (js "#f8fafc")
    /\ BrandDNA.logo b = None
    /\ BrandDNA.typography b = BrandDNA.typography (MOCK_BRAND env)
    /\ BrandDNA.tone b = BrandDNA.tone (MOCK_BRAND env)
    /\ BrandDNA.keywords b = BrandDNA.keywords (MOCK_BRAND env)
    /\ BrandDNA.industry b = BrandDNA.industry (MOCK_BRAND env)
    /\ BrandDNA.extractedAt b = BrandDNA.extractedAt (MOCK_BRAND env)
    /\ (forall w2 : World,
          HomeState.brand (home (exec (handleExtract env u) w2)) = Some b).
Proof.
  exists (BrandDNA.with_websiteUrl (MOCK_BRAND env) u).
  rewrite handleExtract_exec.
  unfold BrandDNA.with_websiteUrl, MOCK_BRAND. simpl.
  do 12 (split; [reflexivity|]).
  intros w2. reflexivity.
Qed.

(* ===================================================================== *)
(** ** Gallery *)
(* ===================================================================== *)

(** C10: with an empty list of generated content the gallery is handed
    the two fixed mock items; with a non-empty list it is handed the
    generated assets and nothing else, which is the case right after any
    generation. *)
Theorem gallery_falls_back_to_mock_content (env : Env) (h : HomeState.t) :
  galleryItems env h =
    match HomeState.generatedContent h with
    | [] => [MOCK_CONTENT_0 env; MOCK_CONTENT_1 env]
    | _ :: _ => HomeState.generatedContent h
    end
  /\ MOCK_CONTENT env = [MOCK_CONTENT_0 env; MOCK_CONTENT_1 env]
  /\ (forall (platform prompt : jsstring) (type : ContentType) (w : World),
        let h' := home (exec (handleGenerate env platform prompt type) w) in
        HomeState.generatedContent h' <> []
        /\ galleryItems env h' = HomeState.generatedContent h').
Proof.
  split; [|split].
  - unfold galleryItems. destruct (HomeState.generatedContent h); reflexivity.
  - reflexivity.
  - intros platform prompt type w h'. subst h'.
    rewrite handleGenerate_exec. split; [discriminate | reflexivity].
Qed.

(* ===================================================================== *)
(** ** Step navigation *)
(* ===================================================================== *)

(** C8: whatever the current step, the button rendered at a position of
    the step bar is clickable if and only if its index is below the index
    of the current step (the step is completed) or it is the gallery
    button; so the gallery button, the fifth one, is clickable in every
    step. *)
Theorem nav_clickable_iff (step : GenerationStep) (index : nat)
    (b : NavButton) :
  renderNavigation step !! index = Some b ->
  (isClickable b = true <->
     (Z.of_nat index < currentIndex step \/ btn_id b = gallery))
  /\ isCompleted b = (Z.of_nat index <? currentIndex step)
  /\ (exists g : NavButton,
        renderNavigation step !! 4%nat = Some g
        /\ btn_id g = gallery /\ isClickable g = true).
Proof.
  intros H.
  destruct step;
    do 5 (destruct index as [|index];
          [cbv in H; injection H as <-; cbv;
           intuition (eauto; congruence)|]);
    cbv in H; discriminate.
Qed.

(* ===================================================================== *)
(** ** Runs of the page *)
(* ===================================================================== *)

Section Runs.

Variable env : Env.

Lemma exec_mret (w : World) : exec (mret tt) w = w.
Proof. reflexivity. Qed.

Lemma dispatch_exec (e : Event) (w : World) :
  exec (dispatch env e) w = exec (handlerOf env (home w) e) w.
Proof. reflexivity. Qed.

(** Every event is taken by at most one handler. *)
Lemma dispatch_effect (e : Event) (w : World) :
  Effect env w (exec (dispatch env e) w).
Proof.
  rewrite dispatch_exec. generalize (home w) as h. intros h.
  destruct e as [ms|u| |file position size|form|index| |i c];
    unfold handlerOf.
  - apply effect_tick.
  - destruct (bool_decide _); [apply effect_extract | apply effect_none].
  - destruct (_ && _); [apply effect_setStep | apply effect_none].
  - destruct (bool_decide _); [apply effect_logo | apply effect_none].
  - destruct (_ && _); [|apply effect_none].
    unfold GenerationForm.handleSubmit.
    destruct (truthy _); [apply effect_generate | apply effect_none].
  - destruct (_ !! _) as [b|]; [|apply effect_none].
    unfold navOnClick.
    destruct (isClickable b); [apply effect_setStep | apply effect_none].
  - destruct (bool_decide _); [apply effect_setStep | apply effect_none].
  - destruct (bool_decide _); [|apply effect_none].
    destruct (_ !! _) as [item|]; [|apply effect_none].
    unfold DownloadModal.onClick.
    destruct (DownloadModal.clicked item c);
      [apply effect_download | apply effect_none].
Qed.

(** Induction over the runs of the page from a given world. *)
Lemma run_invariant (P : World -> Prop) :
  (forall w w', P w -> Effect env w w' -> P w') ->
  forall (evs : list Event) (w : World), P w -> P (run env evs w).
Proof.
  intros Hstep evs. induction evs as [|e evs IH]; intros w Hw; [exact Hw|].
  simpl. apply IH. eapply Hstep; [exact Hw | apply dispatch_effect].
Qed.

Lemma run_app (evs1 evs2 : list Event) (w : World) :
  run env (evs1 ++ evs2) w = run env evs2 (run env evs1 w).
Proof. unfold run. apply fold_left_app. Qed.

End Runs.

(* ===================================================================== *)
(** ** Invariants of the runs *)
(* ===================================================================== *)

Section Invariants.

Variable env : Env.

Ltac effect_cases H :=
  destruct H;
  rewrite ?handleExtract_exec, ?handleGenerate_exec, ?handleLogoUpload_exec,
    ?handleDownload_exec, ?setStep_exec.

(** The clock never runs backwards. *)
Lemma Effect_clock (w w' : World) : Effect env w w' -> clock w <= clock w'.
Proof.
  intros H. effect_cases H; try (simpl; lia).
  destruct (HomeState.brand (home w)); simpl; lia.
Qed.

(** Only a generation touches the generated content, and what it does is
    to put one asset, named after the clock it has just read, in front. *)
Lemma Effect_content (w w' : World) :
  Effect env w w' ->
  HomeState.generatedContent (home w') = HomeState.generatedContent (home w)
  \/ exists c : GeneratedContent.t,
       HomeState.generatedContent (home w')
         = c :: HomeState.generatedContent (home w)
       /\ GeneratedContent.id c = toString (clock w')
       /\ clock w < clock w'.
Proof.
  intros H. effect_cases H; try (left; reflexivity).
  - left. destruct (HomeState.brand (home w)); reflexivity.
  - right. eexists. simpl. split; [reflexivity|]. split; [reflexivity | lia].
Qed.


Lemma idsFromPast_run (evs : list Event) (now : Z) :
  idsFromPast (run env evs (initialWorld now)).
Proof.
  apply run_invariant.
  - intros w w' Hw He i Hi.
    pose proof (Effect_clock _ _ He) as Hc.
    unfold contentIds in Hi.
    destruct (Effect_content _ _ He) as [E|(c & E & Hid & Hlt)];
      rewrite E in Hi.
    + destruct (Hw i Hi) as (t & -> & Ht). exists t. split; [reflexivity|lia].
    + simpl in Hi. destruct Hi as [<-|Hi].
      * exists (clock w'). split; [exact Hid | lia].
      * destruct (Hw i Hi) as (t & -> & Ht). exists t.
        split; [reflexivity|lia].
  - intros i [].
Qed.


End Invariants.

(* ===================================================================== *)
(** ** Logo *)
(* ===================================================================== *)



(* ===================================================================== *)
(** ** Generation *)
(* ===================================================================== *)

(** C7: a generation made in any state the page can reach puts exactly
    one new asset in front of the generated content, with an id that no
    earlier asset has, and with the submitted type, platform and prompt;
    the earlier assets follow it unchanged and in the same order. *)
Theorem generate_adds_one_fresh_asset (env : Env) (evs : list Event) (now : Z)
    (platform prompt : jsstring) (type : ContentType) :
  let w := run env evs (initialWorld now) in
  let w' := exec (handleGenerate env platform prompt type) w in
  exists c : GeneratedContent.t,
    HomeState.generatedContent (home w')
      = c :: HomeState.generatedContent (home w)
    /\ ~ In (GeneratedContent.id c) (contentIds (home w))
    /\ GeneratedContent.type c = type
    /\ GeneratedContent.platform c = platform
    /\ GeneratedContent.prompt c = prompt.
Proof.
  intros w w'. subst w'. rewrite handleGenerate_exec. eexists.
  split; [reflexivity|]. split; [|repeat split].
  simpl. intros Hin.
  destruct (idsFromPast_run env evs now _ Hin) as (t & E & Ht).
  apply toString_inj in E. fold w in Ht. lia.
Qed.

(** C1 (as amended): [handleGenerate] has no logo precondition.  In a
    state without a logo (no brand at all, or a brand whose logo is null)
    it does what it does in every state: it puts one new asset in front of
    the generated content, stamped with the id of the brand, or with the
    empty string when there is no brand, and moves to the gallery; the
    brand is left without a logo. *)
Theorem generate_without_logo_adds_asset (env : Env) (w : World)
    (platform prompt : jsstring) (type : ContentType) :
  currentLogo (home w) = None ->
  let w' := exec (handleGenerate env platform prompt type) w in
  exists c : GeneratedContent.t,
    HomeState.generatedContent (home w')
      = c :: HomeState.generatedContent (home w)
    /\ GeneratedContent.brandId c = brandIdOrEmpty (HomeState.brand (home w))
    /\ GeneratedContent.type c = type
    /\ GeneratedContent.platform c = platform
    /\ GeneratedContent.prompt c = prompt
    /\ HomeState.step (home w') = gallery
    /\ currentLogo (home w') = None.
Proof.
  intros H w'. subst w'. rewrite handleGenerate_exec. eexists.
  split; [reflexivity|]. repeat split. exact H.
Qed.

Lemma generate_without_logo_adds_asset_witness :
  exists c : GeneratedContent.t,
    HomeState.generatedContent
      (home (exec (handleGenerate sampleEnv (js "facebook") (js "Hola") image)
               (run sampleEnv skipLogoPath (initialWorld 0))))
      = [c].
Proof.
  destruct (generate_without_logo_adds_asset sampleEnv
              (run sampleEnv skipLogoPath (initialWorld 0))
              (js "facebook") (js "Hola") image) as (c & E & _).
  - vm_compute. reflexivity.
  - exists c. exact E.
Defined.

(** C1, counterexample: after an extraction the brand has no logo; the
    gallery button and then "generate more" lead to the generation form,
    and a submission there stores one asset. *)
Lemma generate_missing_logo_counterexample :
  let w := run sampleEnv skipLogoPath (initialWorld 0) in
  let w' := run sampleEnv [SubmitGeneration sampleForm] w in
  HomeState.step (home w) = generate
  /\ currentLogo (home w) = None
  /\ HomeState.generatedContent (home w) = []
  /\ w' = exec (handleGenerate sampleEnv (js "instagram_post")
                  (js "Anuncio de nuevo producto innovador") image) w
  /\ length (HomeState.generatedContent (home w')) = 1%nat
  /\ contentIds (home w') = [js "10500"].
Proof. vm_compute. repeat split. Qed.

(** C3 (as amended): the form validates that the prompt is not blank and
    nothing else.  A submission whose prompt is empty or holds only white
    space calls nothing, and is dropped without any error value, and its
    submit button is disabled; a submission whose prompt holds between 1
    and 500 characters, one of them not white space, calls [onGenerate]
    with the id of the selected platform, the prompt as typed and the
    content type. *)
Theorem submit_requires_nonblank_prompt
    (onGenerate : jsstring -> jsstring -> ContentType -> Handler unit)
    (st : GenerationForm.State) (isGenerating : bool) :
  (forallb isWhiteSpace (GenerationForm.prompt st) = true ->
     GenerationForm.handleSubmit onGenerate st = mret tt
     /\ GenerationForm.submitDisabled st isGenerating = true)
  /\ (forallb isWhiteSpace (GenerationForm.prompt st) = false ->
      (1 <= length (GenerationForm.prompt st) <= 500)%nat ->
      GenerationForm.handleSubmit onGenerate st
        = onGenerate (Platform.id (GenerationForm.selectedPlatform st))
            (GenerationForm.prompt st) (GenerationForm.contentType st)
      /\ GenerationForm.submitDisabled st isGenerating = isGenerating).
Proof.
  unfold GenerationForm.handleSubmit, GenerationForm.submitDisabled.
  rewrite truthy_trim. split.
  - intros ->. split; reflexivity.
  - intros -> _. split; reflexivity.
Qed.

Lemma submit_requires_nonblank_prompt_witness :
  exec (GenerationForm.handleSubmit (handleGenerate sampleEnv) blankPromptForm)
       (initialWorld 0) = initialWorld 0
  /\ exec (GenerationForm.handleSubmit (handleGenerate sampleEnv) sampleForm)
          (initialWorld 0)
     = exec (handleGenerate sampleEnv (js "instagram_post")
               (js "Anuncio de nuevo producto innovador") image)
            (initialWorld 0).
Proof.
  pose proof (submit_requires_nonblank_prompt (handleGenerate sampleEnv)
                blankPromptForm false) as [Hblank _].
  pose proof (submit_requires_nonblank_prompt (handleGenerate sampleEnv)
                sampleForm false) as [_ Hfull].
  split.
  - destruct Hblank as [-> _]; [vm_compute; reflexivity | reflexivity].
  - destruct Hfull as [-> _];
      [vm_compute; reflexivity | vm_compute; lia | reflexivity].
Defined.

(** C3, counterexample: a prompt of 501 letters is submitted like any
    other: the button is enabled, [handleSubmit] calls the generation, and
    an asset with that prompt is stored. *)
Lemma long_prompt_counterexample :
  let w := run sampleEnv skipLogoPath (initialWorld 0) in
  let w' := run sampleEnv [SubmitGeneration longPromptForm] w in
  length (GenerationForm.prompt longPromptForm) = 501%nat
  /\ GenerationForm.submitDisabled longPromptForm
       (HomeState.isGenerating (home w)) = false
  /\ exec (GenerationForm.handleSubmit (handleGenerate sampleEnv)
             longPromptForm) w
     = exec (handleGenerate sampleEnv (js "instagram_post")
               (repeat 97%N 501) image) w
  /\ List.map (fun c => length (GeneratedContent.prompt c))
       (HomeState.generatedContent (home w')) = [501%nat].
Proof. vm_compute. repeat split. Qed.

(* ===================================================================== *)
(** ** Download *)
(* ===================================================================== *)




(** C5: for every key, two successive requests to the exporter give the
    same answer, and the second one changes nothing in the store: it
    performs no transcode.  For an allowed combination the answer is a
    variant, which is in the cache after the first request; the first
    request transcodes (once) exactly when the key was not cached. *)
Theorem export_twice_hits_cache
    (transcode : FormatExporter.ContentAsset.t -> Format -> Quality ->
                 FormatExporter.bytes)
    (a : FormatExporter.ContentAsset.t) (f : Format) (q : Quality)
    (s : FormatExporter.Store) :
  let first := FormatExporter.export transcode a f q s in
  let second := FormatExporter.export transcode a f q (snd first) in
  fst second = fst first
  /\ snd second = snd first
  /\ FormatExporter.transcodes (snd second)
     = FormatExporter.transcodes (snd first)
  /\ (FormatExporter.allowed (FormatExporter.ContentAsset.contentType a) f q
        = true ->
      exists variant : FormatExporter.bytes,
        fst first = inr variant
        /\ FormatExporter.cache (snd first) !! FormatExporter.keyOf a f q
           = Some variant
        /\ (FormatExporter.cache s !! FormatExporter.keyOf a f q = None ->
            variant = transcode a f q
            /\ FormatExporter.transcodes (snd first)
               = S (FormatExporter.transcodes s))
        /\ (is_Some (FormatExporter.cache s !! FormatExporter.keyOf a f q) ->
            snd first = s)).
Proof.
  intros first second. subst second first. unfold FormatExporter.export.
  destruct (FormatExporter.allowed _ f q) eqn:Ha; simpl.
  2: { do 3 (split; [reflexivity|]). discriminate. }
  destruct (FormatExporter.cache s !! FormatExporter.keyOf a f q)
    as [v|] eqn:Hc; simpl.
  - rewrite Hc. simpl. do 3 (split; [reflexivity|]). intros _. exists v.
    split; [reflexivity|]. split; [reflexivity|].
    split; [discriminate | intros _; reflexivity].
  - rewrite lookup_insert_eq. simpl. do 3 (split; [reflexivity|]).
    intros _. exists (transcode a f q). split; [reflexivity|].
    split; [reflexivity|]. split; [split; reflexivity|].
    intros [x Hx]. discriminate.
Qed.

Lemma export_twice_hits_cache_witness :
  let first :=
    FormatExporter.export sampleTranscode sampleAsset mp4 hd
      FormatExporter.emptyStore in
  let second :=
    FormatExporter.export sampleTranscode sampleAsset mp4 hd (snd first) in
  fst first = inr (sampleTranscode sampleAsset mp4 hd)
  /\ FormatExporter.transcodes (snd first) = 1%nat
  /\ fst second = fst first
  /\ FormatExporter.transcodes (snd second) = 1%nat.
Proof.
  intros first second.
  destruct (export_twice_hits_cache sampleTranscode sampleAsset mp4 hd
              FormatExporter.emptyStore) as (H1 & _ & H3 & H4).
  destruct H4 as (v & Hv & _ & Hmiss & _); [reflexivity|].
  destruct Hmiss as [-> Hn]; [reflexivity|].
  fold first in H1, H3, Hv, Hn. fold second in H1, H3.
  split; [exact Hv|]. split; [exact Hn|]. split; [exact H1|].
  rewrite H3. exact Hn.
Defined.

Lemma nav_clickable_iff_witness :
  exists b : NavButton,
    renderNavigation logo !! 1%nat = Some b
    /\ btn_id b = confirm
    /\ isClickable b = true.
Proof.
  eexists. split; [vm_compute; reflexivity|]. split; [reflexivity|].
  eapply (nav_clickable_iff logo 1).
  - vm_compute. reflexivity.
  - left. vm_compute. reflexivity.
Defined.

(** The step bar in the logo step and during an extraction. *)
Example nav_in_logo_step :
  List.map (fun b => (btn_id b, isClickable b)) (renderNavigation logo)
  = [ (url, true); (confirm, true); (logo, false); (generate, false);
      (gallery, true) ].
Proof. reflexivity. Qed.

Example nav_while_extracting :
  currentIndex extracting = -1
  /\ List.map (fun b => (btn_id b, isClickable b)) (renderNavigation extracting)
     = [ (url, false); (confirm, false); (logo, false); (generate, false);
         (gallery, true) ].
Proof. split; reflexivity. Qed.

Example trim_examples :
  trim ([32%N; 9%N] ++ js "hola mundo" ++ [13%N; 10%N]) = js "hola mundo"
  /\ trim [32%N; 160%N; 8232%N; 10%N] = []
  /\ toString 1762110000000 = js "1762110000000"
  /\ toString (-15) = js "-15".
Proof. vm_compute. repeat split. Qed.

(* ===================================================================== *)
(** * Further properties of the page *)
(* ===================================================================== *)

Section PageFacts.

Variable env : Env.

Lemma sleep_exec (ms : Z) (w : World) :
  exec (sleep ms) w = mkWorld (home w) (clock w + ms) (published w) (downloads w).
Proof. reflexivity. Qed.

(** Induction over the runs, event by event. *)
Lemma run_dispatch_invariant (P : World -> Prop) :
  (forall w e, P w -> P (exec (dispatch env e) w)) ->
  forall (evs : list Event) (w : World), P w -> P (run env evs w).
Proof.
  intros Hstep evs. induction evs as [|e evs IH]; intros w Hw; [exact Hw|].
  simpl. apply IH, Hstep, Hw.
Qed.

(** The page takes every event as [Taken] says. *)
Lemma dispatch_taken (e : Event) (w : World) :
  Taken env w e (exec (dispatch env e) w).
Proof.
  rewrite dispatch_exec.
  destruct e as [ms|u| |file position size|form|index| |i c];
    unfold handlerOf.
  - apply taken_tick.
  - destruct (bool_decide _) eqn:E.
    + apply taken_extract. now apply bool_decide_eq_true in E.
    + now apply taken_ignored.
  - destruct (bool_decide (_ = confirm)) eqn:E1;
      [destruct (bool_decide (is_Some _)) eqn:E2|]; simpl.
    + apply bool_decide_eq_true in E1, E2. now apply taken_confirm.
    + now apply taken_ignored.
    + now apply taken_ignored.
  - destruct (bool_decide _) eqn:E.
    + apply taken_upload. now apply bool_decide_eq_true in E.
    + now apply taken_ignored.
  - destruct (bool_decide _) eqn:E1; simpl; [|now apply taken_ignored].
    unfold GenerationForm.submitDisabled, GenerationForm.handleSubmit.
    rewrite truthy_trim.
    destruct (forallb isWhiteSpace _) eqn:E2; simpl;
      [now apply taken_ignored|].
    destruct (HomeState.isGenerating (home w)) eqn:E3; simpl;
      [now apply taken_ignored|].
    apply bool_decide_eq_true in E1. now apply taken_generate.
  - destruct (_ !! _) as [b|] eqn:E; [|now apply taken_ignored].
    unfold navOnClick. destruct (isClickable b) eqn:Eb.
    + now apply (taken_nav env w index b).
    + now apply taken_ignored.
  - destruct (bool_decide _) eqn:E.
    + apply taken_more. now apply bool_decide_eq_true in E.
    + now apply taken_ignored.
  - destruct (bool_decide _) eqn:E; [|now apply taken_ignored].
    apply bool_decide_eq_true in E.
    destruct (_ !! _) as [item|] eqn:Ei; [|now apply taken_ignored].
    unfold DownloadModal.onClick.
    destruct (DownloadModal.clicked item c) as [format|] eqn:Ec.
    + now apply (taken_download env w i c item format).
    + now apply taken_ignored.
Qed.

(** What an event does to the brand: nothing, or an extraction loads the
    mock brand, or an upload gives the brand that is there a logo. *)
Lemma Effect_brand (w w' : World) :
  Effect env w w' ->
  HomeState.brand (home w') = HomeState.brand (home w)
  \/ (exists u, HomeState.brand (home w')
                = Some (BrandDNA.with_websiteUrl (MOCK_BRAND env) u))
  \/ (exists b l, HomeState.brand (home w) = Some b
                  /\ HomeState.brand (home w')
                     = Some (BrandDNA.with_logo b (Some l))
                  /\ LogoAsset.id l = js "logo-1").
Proof.
  intros H. destruct H;
    rewrite ?handleExtract_exec, ?handleGenerate_exec, ?handleLogoUpload_exec,
      ?handleDownload_exec, ?setStep_exec; try (left; reflexivity).
  - right. left. eexists. reflexivity.
  - destruct (HomeState.brand (home w)) as [b|] eqn:Hb.
    + right. right. eexists b, _. split; [reflexivity|].
      split; reflexivity.
    + left. now rewrite Hb.
Qed.

(** Every brand the page holds is the mock brand, up to its URL and its
    logo, and a logo is always called logo-1. *)
Lemma brand_shape_run (evs : list Event) (now : Z) (b : BrandDNA.t) :
  HomeState.brand (home (run env evs (initialWorld now))) = Some b ->
  exists u l,
    b = BrandDNA.with_logo (BrandDNA.with_websiteUrl (MOCK_BRAND env) u) l
    /\ (forall x, l = Some x -> LogoAsset.id x = js "logo-1").
Proof.
  revert b.
  apply (run_invariant env
    (fun w => forall b, HomeState.brand (home w) = Some b ->
       exists u l,
         b = BrandDNA.with_logo
               (BrandDNA.with_websiteUrl (MOCK_BRAND env) u) l
         /\ (forall x, l = Some x -> LogoAsset.id x = js "logo-1"))).
  - intros w w' Hw He b Hb.
    destruct (Effect_brand _ _ He) as [E|[[u E]|(b0 & l & E0 & E & Hl)]];
      rewrite E in Hb.
    + now apply Hw.
    + injection Hb as <-. exists u, None. split; [|discriminate].
      unfold BrandDNA.with_logo, BrandDNA.with_websiteUrl, MOCK_BRAND.
      simpl. reflexivity.
    + injection Hb as <-. destruct (Hw b0 E0) as (u & l0 & -> & _).
      exists u, (Some l). split.
      * unfold BrandDNA.with_logo, BrandDNA.with_websiteUrl. simpl.
        reflexivity.
      * intros x [= <-]. exact Hl.
  - discriminate.
Qed.

Lemma idsFromPast_Effect (w w' : World) :
  Effect env w w' -> idsFromPast w -> idsFromPast w'.
Proof.
  intros He Hw i Hi.
  pose proof (Effect_clock env _ _ He) as Hc.
  unfold contentIds in Hi.
  destruct (Effect_content env _ _ He) as [E|(c & E & Hid & Hlt)];
    rewrite E in Hi.
  - destruct (Hw i Hi) as (t & -> & Ht). exists t. split; [reflexivity|lia].
  - simpl in Hi. destruct Hi as [<-|Hi].
    + exists (clock w'). split; [exact Hid | lia].
    + destruct (Hw i Hi) as (t & -> & Ht). exists t. split; [reflexivity|lia].
Qed.

(** The ids of the generated content are pairwise distinct. *)
Lemma contentIds_NoDup_run (evs : list Event) (now : Z) :
  NoDup (contentIds (home (run env evs (initialWorld now)))).
Proof.
  apply (run_invariant env
    (fun w => NoDup (contentIds (home w)) /\ idsFromPast w)).
  - intros w w' [Hn Hp] He. split; [|now apply (idsFromPast_Effect w)].
    unfold contentIds.
    destruct (Effect_content env _ _ He) as [E|(c & E & Hid & Hlt)];
      rewrite E; [exact Hn|].
    simpl. apply NoDup_cons_2; [|exact Hn].
    intros Hin. apply list_elem_of_In in Hin.
    destruct (Hp _ Hin) as (t & Et & Ht).
    rewrite Hid in Et. apply toString_inj in Et. lia.
  - split; [constructor | intros i []].
Qed.

(** What an event does to the generated content, in full. *)
Lemma Effect_new_asset (w w' : World) :
  Effect env w w' ->
  HomeState.generatedContent (home w') = HomeState.generatedContent (home w)
  \/ exists platform prompt type,
       HomeState.generatedContent (home w')
       = GeneratedContent.mk (toString (clock w + 3000)) type platform
           (GeneratedContent.url (MOCK_CONTENT_0 env))
           (GeneratedContent.thumbnailUrl (MOCK_CONTENT_0 env))
           prompt (toISOString env (clock w + 3000))
           (brandIdOrEmpty (HomeState.brand (home w))) []
         :: HomeState.generatedContent (home w).
Proof.
  intros H. destruct H;
    rewrite ?handleExtract_exec, ?handleGenerate_exec, ?handleLogoUpload_exec,
      ?handleDownload_exec, ?setStep_exec; try (left; reflexivity).
  - left. destruct (HomeState.brand (home w)); reflexivity.
  - right. eexists _, _, _. reflexivity.
Qed.

(** A run puts at most one asset per event in front of the generated
    content, and takes nothing away. *)
Lemma content_grows (evs : list Event) (w : World) :
  exists newer : list GeneratedContent.t,
    HomeState.generatedContent (home (run env evs w))
      = newer ++ HomeState.generatedContent (home w)
    /\ (length newer <= length evs)%nat.
Proof.
  revert w. induction evs as [|e evs IH]; intros w.
  - exists []. split; [reflexivity | simpl; lia].
  - simpl. destruct (IH (exec (dispatch env e) w)) as (newer & E & Hl).
    destruct (Effect_content env _ _ (dispatch_effect env e w))
      as [E0|(c & E0 & _)]; rewrite E0 in E.
    + exists newer. split; [exact E | simpl; lia].
    + exists (newer ++ [c]). rewrite <- app_assoc. split; [exact E|].
      rewrite length_app. simpl. lia.
Qed.

(** An asset found after a run was there before it, or comes from a
    submission of the form during the run. *)
Lemma content_provenance (evs : list Event) (w : World)
    (c : GeneratedContent.t) :
  In c (HomeState.generatedContent (home (run env evs w))) ->
  In c (HomeState.generatedContent (home w))
  \/ exists form : GenerationForm.State,
       In (SubmitGeneration form) evs
       /\ GeneratedContent.prompt c = GenerationForm.prompt form
       /\ GeneratedContent.platform c
          = Platform.id (GenerationForm.selectedPlatform form)
       /\ GeneratedContent.type c = GenerationForm.contentType form
       /\ forallb isWhiteSpace (GenerationForm.prompt form) = false.
Proof.
  revert w. induction evs as [|e evs IH]; intros w Hc; [left; exact Hc|].
  simpl in Hc. destruct (IH _ Hc) as [H|(form & Hin & H)].
  2: { right. exists form. split; [right; exact Hin | exact H]. }
  pose proof (dispatch_taken e w) as Ht.
  remember (exec (dispatch env e) w) as w' eqn:Ew. clear Ew Hc IH.
  destruct Ht;
    rewrite ?handleExtract_exec, ?handleGenerate_exec, ?handleLogoUpload_exec,
      ?handleDownload_exec, ?setStep_exec, ?sleep_exec in H;
    try (left; exact H).
  - left. destruct (HomeState.brand (home w)); exact H.
  - simpl in H. destruct H as [<-|H]; [|left; exact H].
    right. exists form. split; [left; reflexivity|]. repeat split. assumption.
Qed.

Lemma brandIdOrEmpty_cases (b : option BrandDNA.t) :
  (forall x, b = Some x -> BrandDNA.id x = js "demo-1") ->
  brandIdOrEmpty b = match b with Some _ => js "demo-1" | None => js "" end.
Proof.
  intros H. destruct b as [x|]; [|reflexivity].
  unfold brandIdOrEmpty. rewrite (H x eq_refl). reflexivity.
Qed.

(** Every generated asset shows the first mock picture, offers no download
    formats of its own, and is stamped demo-1 or with the empty string. *)
Lemma assets_shape_run (evs : list Event) (now : Z) (c : GeneratedContent.t) :
  In c (HomeState.generatedContent (home (run env evs (initialWorld now)))) ->
  GeneratedContent.url c = GeneratedContent.url (MOCK_CONTENT_0 env)
  /\ GeneratedContent.thumbnailUrl c
     = GeneratedContent.thumbnailUrl (MOCK_CONTENT_0 env)
  /\ GeneratedContent.downloadFormats c = []
  /\ (GeneratedContent.brandId c = js "demo-1"
      \/ GeneratedContent.brandId c = js "").
Proof.
  revert c.
  assert (forall evs1,
    (forall b, HomeState.brand (home (run env evs1 (initialWorld now))) = Some b
               -> BrandDNA.id b = js "demo-1")) as Hid.
  { intros evs1 b Hb. destruct (brand_shape_run evs1 now b Hb) as (u & l & -> & _).
    reflexivity. }
  induction evs as [|e evs IH] using rev_ind; intros c Hc; [destruct Hc|].
  rewrite run_app in Hc. simpl in Hc.
  destruct (Effect_new_asset _ _
              (dispatch_effect env e (run env evs (initialWorld now))))
    as [E|(pl & pr & ty & E)]; rewrite E in Hc; [now apply IH|].
  destruct Hc as [<-|Hc]; [|now apply IH].
  simpl. do 3 (split; [reflexivity|]).
  rewrite (brandIdOrEmpty_cases _ (Hid evs)).
  destruct (HomeState.brand _); [left | right]; reflexivity.
Qed.

End PageFacts.

(** X1: in every state the page can reach, the items handed to the
    gallery, generated or mock, have pairwise distinct ids, which the grid
    uses as React keys. *)
Theorem gallery_keys_distinct (env : Env) (evs : list Event) (now : Z) :
  NoDup (List.map GeneratedContent.id
           (galleryItems env (home (run env evs (initialWorld now))))).
Proof.
  unfold galleryItems.
  pose proof (contentIds_NoDup_run env evs now) as H. unfold contentIds in H.
  destruct (HomeState.generatedContent _) as [|c r]; simpl (0 <? _)%nat; cbv iota.
  - unfold MOCK_CONTENT. simpl.
    apply NoDup_cons_2; [|apply NoDup_cons_2; [|constructor]];
      rewrite ?list_elem_of_In; simpl; [|tauto].
    intros [E|[]]. vm_compute in E. discriminate.
  - exact H.
Qed.

(** X2: no event takes anything away from the generated content or
    reorders it: what a run has produced stays, in place, at the end of
    the list through any continuation of the run, and the continuation
    puts at most one new asset per event in front of it. *)
Theorem generated_content_only_grows (env : Env) (evs1 evs2 : list Event)
    (w : World) :
  exists newer : list GeneratedContent.t,
    HomeState.generatedContent (home (run env (evs1 ++ evs2) w))
      = newer ++ HomeState.generatedContent (home (run env evs1 w))
    /\ (length newer <= length evs2)%nat.
Proof. rewrite run_app. apply content_grows. Qed.

(** X3: every asset the page holds after a run from the first page comes
    from a submission of the generation form made during the run: it
    carries the prompt of that submission as typed, the id of the platform
    selected and the content type chosen, and the prompt holds a character
    that is not white space. *)
Theorem stored_assets_come_from_submissions (env : Env) (evs : list Event)
    (now : Z) (c : GeneratedContent.t) :
  In c (HomeState.generatedContent (home (run env evs (initialWorld now)))) ->
  exists form : GenerationForm.State,
    In (SubmitGeneration form) evs
    /\ GeneratedContent.prompt c = GenerationForm.prompt form
    /\ GeneratedContent.platform c
       = Platform.id (GenerationForm.selectedPlatform form)
    /\ GeneratedContent.type c = GenerationForm.contentType form
    /\ forallb isWhiteSpace (GeneratedContent.prompt c) = false.
Proof.
  intros Hc.
  destruct (content_provenance env evs _ c Hc)
    as [[]|(form & Hin & Hp & Hpl & Hty & Hws)].
  exists form. rewrite Hp. repeat split; assumption.
Qed.

Lemma stored_assets_come_from_submissions_witness :
  exists c : GeneratedContent.t,
    In c (HomeState.generatedContent
            (home (run sampleEnv (skipLogoPath ++ [SubmitGeneration sampleForm])
                     (initialWorld 0))))
    /\ forallb isWhiteSpace (GeneratedContent.prompt c) = false.
Proof.
  assert (exists c, HomeState.generatedContent
            (home (run sampleEnv (skipLogoPath ++ [SubmitGeneration sampleForm])
                     (initialWorld 0))) = [c]) as [c E]
    by (vm_compute; eexists; reflexivity).
  exists c.
  assert (In c (HomeState.generatedContent
            (home (run sampleEnv (skipLogoPath ++ [SubmitGeneration sampleForm])
                     (initialWorld 0))))) as Hin
    by (rewrite E; left; reflexivity).
  split; [exact Hin|].
  destruct (stored_assets_come_from_submissions sampleEnv
              (skipLogoPath ++ [SubmitGeneration sampleForm]) 0 c Hin)
    as (form & _ & _ & _ & _ & H).
  exact H.
Defined.

(** X4: whatever was submitted, every generated asset shows the picture
    and the thumbnail of the first mock item, lists no download formats,
    and is stamped with the brand id demo-1, or with the empty string
    when it was generated without a brand. *)
Theorem generated_assets_show_the_mock_picture (env : Env)
    (evs : list Event) (now : Z) (c : GeneratedContent.t) :
  In c (HomeState.generatedContent (home (run env evs (initialWorld now)))) ->
  GeneratedContent.url c = GeneratedContent.url (MOCK_CONTENT_0 env)
  /\ GeneratedContent.thumbnailUrl c
     = GeneratedContent.thumbnailUrl (MOCK_CONTENT_0 env)
  /\ GeneratedContent.downloadFormats c = []
  /\ (GeneratedContent.brandId c = js "demo-1"
      \/ GeneratedContent.brandId c = js "").
Proof. apply assets_shape_run. Qed.

Lemma generated_assets_show_the_mock_picture_witness :
  exists c : GeneratedContent.t,
    In c (HomeState.generatedContent
            (home (run sampleEnv (withLogoPath ++ [SubmitGeneration sampleForm])
                     (initialWorld 0))))
    /\ GeneratedContent.url c = GeneratedContent.url (MOCK_CONTENT_0 sampleEnv).
Proof.
  assert (exists c, HomeState.generatedContent
            (home (run sampleEnv (withLogoPath ++ [SubmitGeneration sampleForm])
                     (initialWorld 0))) = [c]) as [c E]
    by (vm_compute; eexists; reflexivity).
  exists c.
  assert (In c (HomeState.generatedContent
            (home (run sampleEnv (withLogoPath ++ [SubmitGeneration sampleForm])
                     (initialWorld 0))))) as Hin
    by (rewrite E; left; reflexivity).
  split; [exact Hin|].
  exact (proj1 (generated_assets_show_the_mock_picture sampleEnv
                  (withLogoPath ++ [SubmitGeneration sampleForm]) 0 c Hin)).
Defined.

(** X5: whatever URLs were submitted and whatever was uploaded, a brand
    the page holds has the id, name, colours, typography, tone, keywords,
    industry and extraction date of the mock brand; only its websiteUrl
    and its logo vary, and a logo is always stored under the id logo-1. *)
Theorem brand_is_always_the_mock_brand (env : Env) (evs : list Event)
    (now : Z) (b : BrandDNA.t) :
  HomeState.brand (home (run env evs (initialWorld now))) = Some b ->
  BrandDNA.id b = js "demo-1"
  /\ BrandDNA.name b = js "TechVenture"
  /\ BrandDNA.colors b = BrandDNA.colors (MOCK_BRAND env)
  /\ BrandDNA.typography b = BrandDNA.typography (MOCK_BRAND env)
  /\ BrandDNA.tone b = BrandDNA.tone (MOCK_BRAND env)
  /\ BrandDNA.keywords b = BrandDNA.keywords (MOCK_BRAND env)
  /\ BrandDNA.industry b = BrandDNA.industry (MOCK_BRAND env)
  /\ BrandDNA.extractedAt b = BrandDNA.extractedAt (MOCK_BRAND env)
  /\ (forall l, BrandDNA.logo b = Some l -> LogoAsset.id l = js "logo-1").
Proof.
  intros Hb. destruct (brand_shape_run env evs now b Hb) as (u & l & -> & Hl).
  unfold BrandDNA.with_logo, BrandDNA.with_websiteUrl, MOCK_BRAND. simpl.
  do 8 (split; [reflexivity|]). exact Hl.
Qed.

Lemma brand_is_always_the_mock_brand_witness :
  exists b : BrandDNA.t,
    HomeState.brand (home (run sampleEnv withLogoPath (initialWorld 0))) = Some b
    /\ BrandDNA.websiteUrl b = js "https://example.com"
    /\ BrandDNA.name b = js "TechVenture".
Proof.
  eexists. split; [vm_compute; reflexivity|]. split; [reflexivity|].
  eapply (brand_is_always_the_mock_brand sampleEnv withLogoPath 0).
  vm_compute. reflexivity.
Defined.

(** X6: a brand, once the page holds one, is never lost: no event sets
    the brand back to null. *)
Theorem brand_is_never_lost (env : Env) (evs : list Event) (w : World) :
  is_Some (HomeState.brand (home w)) ->
  is_Some (HomeState.brand (home (run env evs w))).
Proof.
  apply (run_invariant env (fun w => is_Some (HomeState.brand (home w)))).
  intros w1 w2 [b Hb] He.
  destruct (Effect_brand env _ _ He) as [E|[[u E]|(b0 & l & _ & E & _)]];
    rewrite E; [rewrite Hb| |]; eexists; reflexivity.
Qed.

Lemma brand_is_never_lost_witness :
  is_Some (HomeState.brand
             (home (run sampleEnv [ClickNav 0; ClickNav 4; GenerateMore]
                      (run sampleEnv withLogoPath (initialWorld 0))))).
Proof.
  apply brand_is_never_lost. vm_compute. eexists. reflexivity.
Defined.

(** X7: a click in the step bar changes nothing but the step, and moves
    only backwards or to the gallery: the step after the click is the step
    before it, or the gallery, or a step of the bar that lies before the
    current one. *)
Theorem nav_click_goes_back_or_to_gallery (env : Env) (index : nat)
    (w : World) :
  let w' := exec (dispatch env (ClickNav index)) w in
  let s := HomeState.step (home w) in
  let s' := HomeState.step (home w') in
  w' = exec (setStep s') w
  /\ (s' = s \/ s' = gallery \/ 0 <= currentIndex s' < currentIndex s).
Proof.
  intros w' s s'. subst w' s s'. rewrite dispatch_exec. unfold handlerOf.
  destruct w as [[s x b g ig ie] c p d]. simpl HomeState.step.
  destruct (renderNavigation s !! index) as [btn|] eqn:E.
  2: { split; [reflexivity | left; reflexivity]. }
  unfold navOnClick. destruct (isClickable btn) eqn:Eb.
  2: { split; [reflexivity | left; reflexivity]. }
  rewrite setStep_exec. simpl. split; [reflexivity|].
  destruct s;
    do 5 (destruct index as [|index];
          [cbv in E; injection E as <-; cbv in Eb; try discriminate;
           cbv; intuition congruence|]);
    cbv in E; discriminate.
Qed.

Section NoExtraction.

Variable env : Env.

(** Without a submission of the URL form the page never gets a brand,
    and what is generated meanwhile carries the empty brand id. *)
Lemma no_extraction_invariant (evs : list Event) (w : World) :
  Forall (fun e => forall u, e <> SubmitUrl u) evs ->
  HomeState.brand (home w) = None ->
  (forall c, In c (HomeState.generatedContent (home w)) ->
             GeneratedContent.brandId c = js "") ->
  HomeState.brand (home (run env evs w)) = None
  /\ (forall c, In c (HomeState.generatedContent (home (run env evs w))) ->
                GeneratedContent.brandId c = js "").
Proof.
  revert w. induction evs as [|e evs IH]; intros w Hev Hb Hc; [now split|].
  apply Forall_cons in Hev as [He Hev]. simpl. apply IH; [exact Hev| |].
  - pose proof (dispatch_taken env e w) as Ht.
    remember (exec (dispatch env e) w) as w' eqn:Ew. clear Ew.
    destruct Ht as [e0 H0|ms|u0 Hs|Hs Hb1|f p sz Hs|form Hs Hg Hp|index btn Hi Hcl|Hs|i c0 item fmt Hs Hi Hcl];
      rewrite ?handleGenerate_exec, ?handleLogoUpload_exec,
        ?handleDownload_exec, ?setStep_exec, ?sleep_exec; try exact Hb.
    + exfalso. apply (He u0). reflexivity.
    + rewrite Hb. exact Hb.
  - pose proof (dispatch_taken env e w) as Ht.
    remember (exec (dispatch env e) w) as w' eqn:Ew. clear Ew.
    destruct Ht as [e0 H0|ms|u0 Hs|Hs Hb1|f p sz Hs|form Hs Hg Hp|index btn Hi Hcl|Hs|i c0 item fmt Hs Hi Hcl];
      rewrite ?handleGenerate_exec, ?handleLogoUpload_exec,
        ?handleDownload_exec, ?setStep_exec, ?sleep_exec; try exact Hc.
    + rewrite Hb. exact Hc.
    + simpl. intros c [<-|Hin]; [|now apply Hc].
      simpl. rewrite Hb. reflexivity.
Qed.

End NoExtraction.

(** X8: only an extraction gives the page a brand.  In a run from the
    first page without a submission of the URL form, whatever else is
    clicked, uploaded or submitted, the brand stays null (a logo uploaded
    in the logo step is dropped), and every asset generated carries the
    empty brand id. *)
Theorem no_brand_without_extraction (env : Env) (evs : list Event) (now : Z) :
  Forall (fun e => forall u, e <> SubmitUrl u) evs ->
  let w := run env evs (initialWorld now) in
  HomeState.brand (home w) = None
  /\ (forall c, In c (HomeState.generatedContent (home w)) ->
                GeneratedContent.brandId c = js "").
Proof.
  intros Hev w. subst w.
  apply no_extraction_invariant; [exact Hev | reflexivity | intros c []].
Qed.

Lemma no_brand_without_extraction_witness :
  let w :=
    run sampleEnv
      (logoStepWithoutBrand ++ [UploadLogo sampleLogoFile center large])
      (initialWorld 0) in
  HomeState.step (home w) = logo /\ HomeState.brand (home w) = None.
Proof.
  split; [vm_compute; reflexivity|].
  apply (no_brand_without_extraction sampleEnv
           (logoStepWithoutBrand ++ [UploadLogo sampleLogoFile center large]) 0).
  repeat constructor; discriminate.
Defined.

(* ===================================================================== *)
(** ** Downloads *)
(* ===================================================================== *)

(** X9: the format chosen in the download dialog only picks the extension
    of the file name.  Every download of an item fetches the URL of the
    item, whatever the format, and leaves the page and the clock as they
    were; two entries of the dialog with the same format, such as png in
    hd and in 4k, start the very same download. *)
Theorem download_depends_on_extension_only (item : GeneratedContent.t)
    (f1 f2 : DownloadFormat.t) (w : World) :
  (DownloadFormat.format f1 = DownloadFormat.format f2 ->
   exec (handleDownload item f1) w = exec (handleDownload item f2) w)
  /\ (exists name1 name2,
        downloads (exec (handleDownload item f1) w)
          = downloads w ++ [ {| fetched := GeneratedContent.url item;
                                savedAs := name1 |} ]
        /\ downloads (exec (handleDownload item f2) w)
           = downloads w ++ [ {| fetched := GeneratedContent.url item;
                                 savedAs := name2 |} ])
  /\ home (exec (handleDownload item f1) w) = home w
  /\ clock (exec (handleDownload item f1) w) = clock w.
Proof.
  rewrite !handleDownload_exec. split; [intros ->; reflexivity|].
  split; [|split; reflexivity]. eexists _, _. split; reflexivity.
Qed.

Lemma download_depends_on_extension_only_witness :
  exec (handleDownload (MOCK_CONTENT_0 sampleEnv)
          (DownloadFormat.mk png hd (js "") (js "~2.5 MB"))) (initialWorld 7)
  = exec (handleDownload (MOCK_CONTENT_0 sampleEnv)
            (DownloadFormat.mk png q4k (js "") (js "~8 MB"))) (initialWorld 7).
Proof.
  apply (download_depends_on_extension_only (MOCK_CONTENT_0 sampleEnv)).
  reflexivity.
Defined.

(** X10: two downloads of the same item in the same format are saved
    under the same file name exactly when they are started at the same
    clock reading. *)
Theorem download_names_follow_the_clock (item : GeneratedContent.t)
    (format : DownloadFormat.t) (w1 w2 : World) (d1 d2 : Download) :
  downloads (exec (handleDownload item format) w1) = downloads w1 ++ [d1] ->
  downloads (exec (handleDownload item format) w2) = downloads w2 ++ [d2] ->
  (savedAs d1 = savedAs d2 <-> clock w1 = clock w2).
Proof.
  rewrite !handleDownload_exec. cbn [downloads]. intros H1 H2.
  apply app_inv_head in H1, H2. injection H1 as <-. injection H2 as <-.
  cbn [savedAs]. split.
  - intros H. apply (app_inv_head (GeneratedContent.platform item)) in H.
    apply (app_inv_head (js "_")) in H.
    apply (app_inv_tail (js "." ++ formatName (DownloadFormat.format format)))
      in H.
    now apply toString_inj.
  - intros ->. reflexivity.
Qed.

Lemma download_names_follow_the_clock_witness :
  savedAs {| fetched := GeneratedContent.url sampleVideo;
             savedAs := js "instagram_story_5.mp4" |}
  = savedAs {| fetched := GeneratedContent.url sampleVideo;
               savedAs := js "instagram_story_9.mp4" |}
  <-> clock (initialWorld 5) = clock (initialWorld 9).
Proof.
  apply (download_names_follow_the_clock sampleVideo
           (DownloadFormat.mk mp4 hd (js "") (js "~15 MB"))
           (initialWorld 5) (initialWorld 9)); vm_compute; reflexivity.
Defined.

Section DownloadFacts.

Variable env : Env.

Lemma galleryItems_cases (h : HomeState.t) (item : GeneratedContent.t) :
  In item (galleryItems env h) ->
  In item (HomeState.generatedContent h)
  \/ item = MOCK_CONTENT_0 env \/ item = MOCK_CONTENT_1 env.
Proof.
  unfold galleryItems.
  destruct (HomeState.generatedContent h) as [|c r]; simpl (0 <? _)%nat;
    cbv iota.
  - intros [<-|[<-|[]]]; auto.
  - auto.
Qed.

Lemma downloads_fetch_mock_run (evs : list Event) (now : Z) (d : Download) :
  In d (downloads (run env evs (initialWorld now))) ->
  fetched d = GeneratedContent.url (MOCK_CONTENT_0 env)
  \/ fetched d = GeneratedContent.url (MOCK_CONTENT_1 env).
Proof.
  revert d. induction evs as [|e evs IH] using rev_ind; intros d Hd;
    [destruct Hd|].
  rewrite run_app in Hd. simpl in Hd.
  pose proof (dispatch_taken env e (run env evs (initialWorld now))) as Ht.
  remember (exec (dispatch env e) (run env evs (initialWorld now))) as w'
    eqn:Ew. clear Ew.
  remember (run env evs (initialWorld now)) as w eqn:Ew.
  destruct Ht as [e0 H0|ms|u0 Hs|Hs Hb1|f p sz Hs|form Hs Hg Hp
                 |index btn Hi Hcl|Hs|i c0 item fmt Hs Hi Hcl];
    rewrite ?handleExtract_exec, ?handleGenerate_exec, ?handleLogoUpload_exec,
      ?handleDownload_exec, ?setStep_exec, ?sleep_exec in Hd;
    try (apply IH; exact Hd).
  - apply IH. destruct (HomeState.brand (home w)); exact Hd.
  - simpl in Hd. apply in_app_or in Hd as [Hd|[<-|[]]]; [now apply IH|].
    cbn [fetched]. apply list_elem_of_lookup_2, list_elem_of_In in Hi.
    destruct (galleryItems_cases _ _ Hi) as [Hin|[->| ->]];
      [|left; reflexivity | right; reflexivity].
    left. rewrite Ew in Hin.
    apply assets_shape_run in Hin as [Hurl _]. exact Hurl.
Qed.

End DownloadFacts.

(** X11: every download the page starts in a run from the first page
    fetches the picture of one of the two mock items: the generated assets
    all point to the first of them. *)
Theorem downloads_fetch_the_mock_pictures (env : Env) (evs : list Event)
    (now : Z) (d : Download) :
  In d (downloads (run env evs (initialWorld now))) ->
  fetched d = GeneratedContent.url (MOCK_CONTENT_0 env)
  \/ fetched d = GeneratedContent.url (MOCK_CONTENT_1 env).
Proof. apply downloads_fetch_mock_run. Qed.

Lemma downloads_fetch_the_mock_pictures_witness :
  exists d : Download,
    In d (downloads
            (run sampleEnv
               [ClickNav 4; ClickDownload 1 DownloadModal.QuickDownload]
               (initialWorld 0)))
    /\ (fetched d = GeneratedContent.url (MOCK_CONTENT_0 sampleEnv)
        \/ fetched d = GeneratedContent.url (MOCK_CONTENT_1 sampleEnv)).
Proof.
  assert (exists d, downloads
            (run sampleEnv
               [ClickNav 4; ClickDownload 1 DownloadModal.QuickDownload]
               (initialWorld 0)) = [d]) as [d E]
    by (vm_compute; eexists; reflexivity).
  exists d.
  assert (In d (downloads
            (run sampleEnv
               [ClickNav 4; ClickDownload 1 DownloadModal.QuickDownload]
               (initialWorld 0)))) as Hin
    by (rewrite E; left; reflexivity).
  split; [exact Hin|].
  exact (downloads_fetch_the_mock_pictures sampleEnv
           [ClickNav 4; ClickDownload 1 DownloadModal.QuickDownload] 0 d Hin).
Defined.

(* ===================================================================== *)
(** * The URL form *)
(* ===================================================================== *)

Lemma startsWith_app (p s : jsstring) : startsWith (p ++ s) p = true.
Proof.
  induction p as [|c p IH]; simpl; [reflexivity|].
  now rewrite N.eqb_refl, IH.
Qed.

Lemma startsWith_nonempty (s p : jsstring) :
  p <> [] -> startsWith s p = true -> s <> [].
Proof. destruct p, s; simpl; congruence. Qed.

Section UrlInputFacts.

Variable constructsURL : jsstring -> bool.

(** On a string that starts with http, [validateUrl] asks the parser about
    that very string. *)
Lemma validateUrl_with_scheme (value : jsstring) :
  startsWith value (js "http") = true ->
  UrlInput.validateUrl constructsURL value = constructsURL value.
Proof.
  intros H. unfold UrlInput.validateUrl. rewrite H.
  destruct value; [discriminate H | reflexivity].
Qed.

Lemma handleSubmit_cases (onSubmit : jsstring -> Handler unit)
    (st : UrlInput.State) :
  UrlInput.url st <> [] ->
  let fullUrl :=
    if startsWith (UrlInput.url st) (js "http") then UrlInput.url st
    else js "https://" ++ UrlInput.url st in
  startsWith fullUrl (js "http") = true
  /\ UrlInput.handleSubmit constructsURL onSubmit st
     = if constructsURL fullUrl then (st, onSubmit fullUrl)
       else ({| UrlInput.url := UrlInput.url st; UrlInput.isValid := false |},
             mret tt).
Proof.
  intros Hne fullUrl.
  assert (startsWith fullUrl (js "http") = true) as Hs.
  { subst fullUrl. destruct (startsWith (UrlInput.url st) (js "http")) eqn:E;
      [exact E|].
    change (js "https://") with (js "http" ++ js "s://").
    rewrite <- app_assoc. apply startsWith_app. }
  split; [exact Hs|].
  unfold UrlInput.handleSubmit.
  destruct (UrlInput.url st) as [|c r] eqn:Eu; [congruence|].
  cbn [truthy negb]. fold fullUrl.
  rewrite (validateUrl_with_scheme fullUrl Hs). reflexivity.
Qed.

End UrlInputFacts.

(** X12: whatever is typed, the URL form submits nothing for an empty
    text; otherwise it completes the text with https:// unless it starts
    with http, asks the URL parser about the completed text once, as it
    is, and either hands exactly that text, which starts with http, to
    [onSubmit], leaving the form as it was, or raises the error flag and
    submits nothing. *)
Theorem urlinput_submits_what_it_parsed (constructsURL : jsstring -> bool)
    (onSubmit : jsstring -> Handler unit) (st : UrlInput.State) :
  let r := UrlInput.handleSubmit constructsURL onSubmit st in
  (UrlInput.url st = [] /\ r = (st, mret tt))
  \/ exists fullUrl : jsstring,
       UrlInput.url st <> []
       /\ (fullUrl = UrlInput.url st
           \/ fullUrl = js "https://" ++ UrlInput.url st)
       /\ startsWith fullUrl (js "http") = true
       /\ (constructsURL fullUrl = true /\ r = (st, onSubmit fullUrl)
           \/ constructsURL fullUrl = false
              /\ r = ({| UrlInput.url := UrlInput.url st;
                         UrlInput.isValid := false |}, mret tt)).
Proof.
  intros r. subst r.
  destruct (UrlInput.url st) as [|c u] eqn:Eu.
  - left. split; [reflexivity|]. unfold UrlInput.handleSubmit.
    rewrite Eu. reflexivity.
  - right.
    assert (UrlInput.url st <> []) as Hne by (rewrite Eu; discriminate).
    destruct (handleSubmit_cases constructsURL onSubmit st Hne) as [Hs ->].
    rewrite Eu in *.
    eexists. split; [discriminate|]. split; [|split; [exact Hs|]].
    + destruct (startsWith (c :: u) (js "http")); [left | right]; reflexivity.
    + destruct (constructsURL _); [left | right]; split; reflexivity.
Qed.

(** X13: a text that starts with the four letters http is never
    completed with a scheme, even when it has none: it is handed to the
    parser as typed, submitted as typed if it parses, and flagged as
    invalid otherwise. *)
Theorem urlinput_takes_http_for_a_scheme (constructsURL : jsstring -> bool)
    (onSubmit : jsstring -> Handler unit) (st : UrlInput.State) :
  startsWith (UrlInput.url st) (js "http") = true ->
  UrlInput.handleSubmit constructsURL onSubmit st
  = if constructsURL (UrlInput.url st) then (st, onSubmit (UrlInput.url st))
    else ({| UrlInput.url := UrlInput.url st; UrlInput.isValid := false |},
          mret tt).
Proof.
  intros H.
  assert (UrlInput.url st <> []) as Hne
    by (apply (startsWith_nonempty _ (js "http")); [discriminate | exact H]).
  destruct (handleSubmit_cases constructsURL onSubmit st Hne) as [_ ->].
  rewrite H. reflexivity.
Qed.

Lemma urlinput_takes_http_for_a_scheme_witness :
  UrlInput.handleSubmit sampleParser (handleExtract sampleEnv) httpbinInput
  = ({| UrlInput.url := js "httpbin.org"; UrlInput.isValid := false |},
     mret tt).
Proof.
  rewrite (urlinput_takes_http_for_a_scheme sampleParser
             (handleExtract sampleEnv) httpbinInput);
    [reflexivity | vm_compute; reflexivity].
Defined.

(** X14: when the URL form is wired to the extraction, as it is on the
    page, a submission either leaves the brand as it was or stores a brand
    whose websiteUrl starts with http and was accepted by the URL parser. *)
Theorem urlinput_extraction_stores_parsed_url (env : Env)
    (constructsURL : jsstring -> bool) (st : UrlInput.State) (w : World)
    (b : BrandDNA.t) :
  HomeState.brand
    (home (exec (snd (UrlInput.handleSubmit constructsURL (handleExtract env)
                        st)) w)) = Some b ->
  HomeState.brand (home w) = Some b
  \/ (startsWith (BrandDNA.websiteUrl b) (js "http") = true
      /\ constructsURL (BrandDNA.websiteUrl b) = true
      /\ b = BrandDNA.with_websiteUrl (MOCK_BRAND env) (BrandDNA.websiteUrl b)).
Proof.
  destruct (UrlInput.url st) as [|c u] eqn:Eu.
  - unfold UrlInput.handleSubmit. rewrite Eu. simpl. intros H. left. exact H.
  - assert (UrlInput.url st <> []) as Hne by (rewrite Eu; discriminate).
    destruct (handleSubmit_cases constructsURL (handleExtract env) st Hne)
      as [Hs ->].
    destruct (constructsURL _) eqn:Ec; cbn [snd].
    + rewrite handleExtract_exec. cbn [home HomeState.brand].
      intros [= <-]. right.
      unfold BrandDNA.with_websiteUrl. cbn [BrandDNA.websiteUrl].
      split; [exact Hs|]. split; [exact Ec | reflexivity].
    + intros H. left. exact H.
Qed.

Lemma urlinput_extraction_stores_parsed_url_witness :
  exists b : BrandDNA.t,
    HomeState.brand
      (home (exec (snd (UrlInput.handleSubmit sampleParser
                          (handleExtract sampleEnv) appleInput))
               (initialWorld 0))) = Some b
    /\ BrandDNA.websiteUrl b = js "https://apple.com"
    /\ startsWith (BrandDNA.websiteUrl b) (js "http") = true.
Proof.
  assert (HomeState.brand
            (home (exec (snd (UrlInput.handleSubmit sampleParser
                                (handleExtract sampleEnv) appleInput))
                     (initialWorld 0)))
          = Some (BrandDNA.with_websiteUrl (MOCK_BRAND sampleEnv)
                    (js "https://apple.com"))) as H0
    by (vm_compute; reflexivity).
  eexists. split; [exact H0|]. split; [reflexivity|].
  destruct (urlinput_extraction_stores_parsed_url sampleEnv sampleParser
              appleInput (initialWorld 0) _ H0) as [H|[H _]].
  - discriminate H.
  - exact H.
Defined.

(* ===================================================================== *)
(** * The progress card *)
(* ===================================================================== *)

Lemma rows_lookup (status : ExtractionStatus.t) (index : nat)
    (r : ExtractionProgress.Row) :
  ExtractionProgress.rows status !! index = Some r ->
  exists entry : ExtractionProgress.StageEntry,
    ExtractionProgress.STAGES !! index = Some entry
    /\ r = {| ExtractionProgress.stage := entry;
              ExtractionProgress.isComplete :=
                Z.of_nat index <? ExtractionProgress.currentStageIndex status;
              ExtractionProgress.isCurrent :=
                Z.of_nat index =? ExtractionProgress.currentStageIndex status;
              ExtractionProgress.isPending :=
                ExtractionProgress.currentStageIndex status <? Z.of_nat index |}.
Proof.
  unfold ExtractionProgress.rows. rewrite list_lookup_imap.
  destruct (ExtractionProgress.STAGES !! index) as [entry|]; simpl;
    [|discriminate].
  intros [= <-]. exists entry. split; reflexivity.
Qed.

(** X15: whatever the status, each line of the stages list is in exactly
    one of the three conditions complete, current and pending. *)
Theorem progress_rows_have_one_condition (status : ExtractionStatus.t)
    (index : nat) (r : ExtractionProgress.Row) :
  ExtractionProgress.rows status !! index = Some r ->
  (ExtractionProgress.isComplete r, ExtractionProgress.isCurrent r,
   ExtractionProgress.isPending r)
  = (true, false, false)
  \/ (ExtractionProgress.isComplete r, ExtractionProgress.isCurrent r,
      ExtractionProgress.isPending r)
     = (false, true, false)
  \/ (ExtractionProgress.isComplete r, ExtractionProgress.isCurrent r,
      ExtractionProgress.isPending r)
     = (false, false, true).
Proof.
  intros H. destruct (rows_lookup status index r H) as (entry & _ & ->).
  cbn [ExtractionProgress.isComplete ExtractionProgress.isCurrent
       ExtractionProgress.isPending].
  generalize (ExtractionProgress.currentStageIndex status) as k. intros k.
  destruct (Z.ltb_spec (Z.of_nat index) k), (Z.eqb_spec (Z.of_nat index) k),
    (Z.ltb_spec k (Z.of_nat index)); auto; lia.
Qed.

Lemma progress_rows_have_one_condition_witness :
  exists r : ExtractionProgress.Row,
    ExtractionProgress.rows
      (ExtractionStatus.mk analyzing_fonts 60 (js "")) !! 1%nat = Some r
    /\ ExtractionProgress.isComplete r = true.
Proof.
  eexists. split; [vm_compute; reflexivity|].
  destruct (progress_rows_have_one_condition
              (ExtractionStatus.mk analyzing_fonts 60 (js "")) 1 _ eq_refl)
    as [H|[H|H]]; [reflexivity | discriminate H | discriminate H].
Defined.

(** X16: in the stages idle and error, which are not in the list of the
    card, the card marks no line as complete or current: every line is
    pending, so that a failed extraction shows no stage as reached. *)
Theorem progress_shows_nothing_reached_on_error (status : ExtractionStatus.t)
    (r : ExtractionProgress.Row) :
  ExtractionStatus.stage status = idle
  \/ ExtractionStatus.stage status = error ->
  In r (ExtractionProgress.rows status) ->
  ExtractionProgress.isPending r = true
  /\ ExtractionProgress.isCurrent r = false
  /\ ExtractionProgress.isComplete r = false.
Proof.
  intros Hs Hr. apply list_elem_of_In, list_elem_of_lookup_1 in Hr as [index Hr].
  destruct (rows_lookup status index r Hr) as (entry & _ & ->).
  assert (ExtractionProgress.currentStageIndex status = -1) as ->.
  { unfold ExtractionProgress.currentStageIndex.
    destruct Hs as [-> | ->]; reflexivity. }
  cbn [ExtractionProgress.isComplete ExtractionProgress.isCurrent
       ExtractionProgress.isPending].
  destruct (Z.ltb_spec (Z.of_nat index) (-1)),
    (Z.eqb_spec (Z.of_nat index) (-1)), (Z.ltb_spec (-1) (Z.of_nat index));
    repeat split; lia.
Qed.

Lemma progress_shows_nothing_reached_on_error_witness :
  exists r : ExtractionProgress.Row,
    In r (ExtractionProgress.rows
            (ExtractionStatus.mk error 40 (js "No se pudo analizar el sitio")))
    /\ ExtractionProgress.isPending r = true.
Proof.
  assert (exists r rest,
            ExtractionProgress.rows
              (ExtractionStatus.mk error 40 (js "No se pudo analizar el sitio"))
            = r :: rest) as (r & rest & E)
    by (vm_compute; eexists _, _; reflexivity).
  exists r.
  assert (In r (ExtractionProgress.rows
                  (ExtractionStatus.mk error 40
                     (js "No se pudo analizar el sitio")))) as Hin
    by (rewrite E; left; reflexivity).
  split; [exact Hin|].
  apply (progress_shows_nothing_reached_on_error
           (ExtractionStatus.mk error 40 (js "No se pudo analizar el sitio")) r);
    [right; reflexivity | exact Hin].
Defined.

(** X17: the table of [handleExtract] and the list of the card agree.
    For the status published at position k of an extraction, the card
    finds the stage at index k of its own list, shows the k lines before it
    as complete, that line as current and the lines after it as pending,
    and the percent value is 20 times k + 1. *)
Theorem progress_card_follows_the_extraction (k : nat)
    (s : ExtractionStatus.t) :
  stages !! k = Some s ->
  ExtractionProgress.currentStageIndex s = Z.of_nat k
  /\ ExtractionStatus.progress s = 20 * (Z.of_nat k + 1)
  /\ List.map ExtractionProgress.isComplete (ExtractionProgress.rows s)
     = replicate k true ++ replicate (5 - k) false
  /\ List.map ExtractionProgress.isCurrent (ExtractionProgress.rows s)
     = replicate k false ++ true :: replicate (4 - k) false
  /\ List.map ExtractionProgress.isPending (ExtractionProgress.rows s)
     = replicate (k + 1) false ++ replicate (4 - k) true.
Proof.
  intros H.
  do 5 (destruct k as [|k];
        [cbv in H; injection H as <-; vm_compute; repeat split|]).
  cbv in H. discriminate.
Qed.

Lemma progress_card_follows_the_extraction_witness :
  List.map ExtractionProgress.isComplete
    (ExtractionProgress.rows
       (ExtractionStatus.mk analyzing_tone 80
          (js "Analizando tono de comunicación...")))
  = [true; true; true; false; false].
Proof.
  apply (progress_card_follows_the_extraction 3
           (ExtractionStatus.mk analyzing_tone 80
              (js "Analizando tono de comunicación..."))).
  reflexivity.
Defined.

(* ===================================================================== *)
(** * The logo form *)
(* ===================================================================== *)

Lemma act_keeps_selection (st : LogoUpload.State) (a : LogoUpload.Action) :
  LogoUpload.takesFile a = false ->
  LogoUpload.selectedFile (LogoUpload.act st a) = LogoUpload.selectedFile st
  /\ LogoUpload.previewUrl (LogoUpload.act st a) = LogoUpload.previewUrl st.
Proof.
  destruct a as [[d|]|[d|]| | |p|s]; simpl; intros H;
    try (split; reflexivity); try discriminate.
  unfold LogoUpload.handleDrop. rewrite H. split; reflexivity.
Qed.

Lemma acts_keep_selection (actions : list LogoUpload.Action)
    (st : LogoUpload.State) :
  Forall (fun a => LogoUpload.takesFile a = false) actions ->
  LogoUpload.selectedFile (fold_left LogoUpload.act actions st)
    = LogoUpload.selectedFile st
  /\ LogoUpload.previewUrl (fold_left LogoUpload.act actions st)
     = LogoUpload.previewUrl st.
Proof.
  revert st. induction actions as [|a actions IH]; intros st H;
    [split; reflexivity|].
  apply Forall_cons in H as [Ha H]. simpl.
  destruct (IH (LogoUpload.act st a) H) as [-> ->].
  now apply act_keeps_selection.
Qed.

(** X18: the drop zone takes a file only if its type starts with image/,
    while the file dialog of the same form takes any file: a file of
    another type that is dropped changes neither the selection nor the
    preview, and the same file chosen in the dialog becomes the selected
    file and is previewed. *)
Theorem logo_drop_checks_the_type_and_dialog_does_not
    (d : LogoUpload.Delivered) (st : LogoUpload.State) :
  startsWith (LogoUpload.type d) (js "image/") = false ->
  LogoUpload.handleDrop (Some d) st = LogoUpload.setIsDragOver false st
  /\ LogoUpload.selectedFile (LogoUpload.onChange (Some d) st)
     = Some (LogoUpload.file d)
  /\ LogoUpload.previewUrl (LogoUpload.onChange (Some d) st)
     = Some (LogoUpload.minted d).
Proof.
  intros H. unfold LogoUpload.handleDrop. rewrite H. repeat split.
Qed.

Lemma logo_drop_checks_the_type_and_dialog_does_not_witness :
  LogoUpload.selectedFile
    (LogoUpload.handleDrop (Some samplePdf) (LogoUpload.initialState None))
  = None
  /\ LogoUpload.selectedFile
       (LogoUpload.onChange (Some samplePdf) (LogoUpload.initialState None))
     = Some (LogoUpload.file samplePdf).
Proof.
  destruct (logo_drop_checks_the_type_and_dialog_does_not samplePdf
              (LogoUpload.initialState None)) as (H1 & H2 & _);
    [vm_compute; reflexivity|].
  rewrite H1. split; [reflexivity | exact H2].
Defined.

(** X19: the form can confirm only after it has taken a file.  Opened on
    a brand with or without a logo, and whatever positions and sizes are
    clicked, and whatever is dragged or dropped that is not an image, the
    confirm button stays disabled, [handleSubmit] calls nothing, and the
    preview still shows the logo the form was opened with: the position
    and size of a stored logo cannot be changed without choosing the file
    again. *)
Theorem logo_form_needs_a_file (currentLogo : option LogoAsset.t)
    (actions : list LogoUpload.Action)
    (onUpload : File -> LogoPosition -> LogoSize -> Handler unit) :
  Forall (fun a => LogoUpload.takesFile a = false) actions ->
  let st := fold_left LogoUpload.act actions
              (LogoUpload.initialState currentLogo) in
  LogoUpload.submitDisabled st false = true
  /\ LogoUpload.handleSubmit onUpload st = mret tt
  /\ LogoUpload.previewUrl st = LogoUpload.urlOrNull currentLogo.
Proof.
  intros H st.
  destruct (acts_keep_selection actions (LogoUpload.initialState currentLogo) H)
    as [Hs Hp]. fold st in Hs, Hp.
  unfold LogoUpload.submitDisabled, LogoUpload.handleSubmit.
  rewrite Hs, Hp. repeat split.
Qed.

Lemma logo_form_needs_a_file_witness :
  LogoUpload.submitDisabled
    (fold_left LogoUpload.act fiddlingWithoutFile
       (LogoUpload.initialState (Some sampleLogo))) false = true.
Proof.
  apply (logo_form_needs_a_file (Some sampleLogo) fiddlingWithoutFile
           handleLogoUpload).
  repeat constructor.
Defined.

(** X20: what the form uploads is the last file it has taken, with the
    position and the size it shows.  Wired to the page, on a page that
    holds a brand, the confirmation stores a logo made of that file, that
    position and that size, with opacity 1, and opens the generation
    step. *)
Theorem logo_form_uploads_the_last_file (before after : list LogoUpload.Action)
    (a : LogoUpload.Action) (d : LogoUpload.Delivered)
    (st0 : LogoUpload.State) (w : World) (b : BrandDNA.t) :
  a = LogoUpload.Drop (Some d) \/ a = LogoUpload.Choose (Some d) ->
  LogoUpload.takesFile a = true ->
  Forall (fun a' => LogoUpload.takesFile a' = false) after ->
  HomeState.brand (home w) = Some b ->
  let st := fold_left LogoUpload.act (before ++ a :: after) st0 in
  LogoUpload.selectedFile st = Some (LogoUpload.file d)
  /\ LogoUpload.previewUrl st = Some (LogoUpload.minted d)
  /\ exec (LogoUpload.handleSubmit handleLogoUpload st) w
     = mkWorld
         (HomeState.mk generate (HomeState.extractionStatus (home w))
            (Some (BrandDNA.with_logo b
               (Some (LogoAsset.mk (js "logo-1")
                        (objectURL (LogoUpload.file d))
                        (LogoUpload.position st) (LogoUpload.size st) 1%Q))))
            (HomeState.generatedContent (home w))
            (HomeState.isGenerating (home w))
            (HomeState.isExtracting (home w)))
         (clock w) (published w) (downloads w).
Proof.
  intros Ha Ht Hafter Hb st. subst st.
  rewrite fold_left_app. simpl.
  set (st1 := fold_left LogoUpload.act before st0).
  destruct (acts_keep_selection after (LogoUpload.act st1 a) Hafter)
    as [Hs Hp].
  assert (LogoUpload.selectedFile (LogoUpload.act st1 a)
            = Some (LogoUpload.file d)
          /\ LogoUpload.previewUrl (LogoUpload.act st1 a)
             = Some (LogoUpload.minted d)) as [Hs1 Hp1].
  { destruct Ha as [-> | ->]; simpl in Ht |- *.
    - unfold LogoUpload.handleDrop. rewrite Ht. split; reflexivity.
    - split; reflexivity. }
  rewrite Hs1 in Hs. rewrite Hp1 in Hp.
  split; [exact Hs|]. split; [exact Hp|].
  unfold LogoUpload.handleSubmit. rewrite Hs.
  rewrite handleLogoUpload_exec, Hb. reflexivity.
Qed.

Lemma logo_form_uploads_the_last_file_witness :
  LogoUpload.selectedFile
    (fold_left LogoUpload.act
       ([LogoUpload.Choose (Some samplePdf)]
        ++ LogoUpload.Drop (Some samplePng) :: fiddlingWithoutFile)
       (LogoUpload.initialState None))
  = Some sampleLogoFile.
Proof.
  destruct (logo_form_uploads_the_last_file
              [LogoUpload.Choose (Some samplePdf)] fiddlingWithoutFile
              (LogoUpload.Drop (Some samplePng)) samplePng
              (LogoUpload.initialState None)
              (run sampleEnv withLogoPath (initialWorld 0))
              (BrandDNA.with_logo
                 (BrandDNA.with_websiteUrl (MOCK_BRAND sampleEnv)
                    (js "https://example.com"))
                 (Some (LogoAsset.mk (js "logo-1")
                          (js "blob:http://localhost:3000/logo")
                          bottom_right medium 1%Q))))
    as (H & _).
  - left. reflexivity.
  - vm_compute. reflexivity.
  - repeat constructor.
  - vm_compute. reflexivity.
  - exact H.
Defined.

(* ===================================================================== *)
(** * The gallery *)
(* ===================================================================== *)

(** X21: the page never shows the empty state of the gallery: the items
    it hands to the gallery are never the empty list, so the gallery
    always renders the grid, and its header counts the two mock items
    before anything has been generated. *)
Theorem gallery_is_never_empty_on_the_page (env : Env) (h : HomeState.t) :
  ContentGallery.body (galleryItems env h) = ContentGallery.Grid (galleryItems env h)
  /\ galleryItems env h <> []
  /\ (HomeState.generatedContent h = [] ->
      length (galleryItems env h) = 2%nat).
Proof.
  unfold galleryItems, ContentGallery.body.
  destruct (HomeState.generatedContent h) as [|c r]; simpl (0 <? _)%nat;
    cbv iota; (split; [reflexivity|]); (split; [discriminate|]).
  - reflexivity.
  - discriminate.
Qed.

Lemma gallery_is_never_empty_on_the_page_witness :
  length (galleryItems sampleEnv initialHome) = 2%nat.
Proof.
  apply (gallery_is_never_empty_on_the_page sampleEnv initialHome).
  reflexivity.
Defined.

(** X22: after any sequence of clicks on download buttons of the grid and
    closings of the dialog, the dialog is open exactly when the last of
    them was a click on a download button, and it is open on the item of
    that button. *)
Theorem download_dialog_shows_last_clicked_item
    (actions : list ContentGallery.Action) :
  ContentGallery.modalItem
    (fold_left ContentGallery.act actions ContentGallery.initialState)
  = match last actions with
    | Some (ContentGallery.ClickDownloadHD item) => Some item
    | _ => None
    end.
Proof.
  induction actions as [|a actions _] using rev_ind; [reflexivity|].
  rewrite fold_left_app, last_snoc. simpl. destruct a; reflexivity.
Qed.

Lemma replace_unit_absent (c d : N) (s : jsstring) :
  Forall (fun x => x <> c) s -> replace [c] [d] s = s.
Proof.
  induction s as [|x s IH]; intros H; [reflexivity|].
  apply Forall_cons in H as [Hx H]. simpl.
  destruct (N.eqb_spec x c) as [->|_]; [congruence|]. simpl.
  now rewrite IH.
Qed.

Lemma replace_unit_first (c d : N) (a b : jsstring) :
  Forall (fun x => x <> c) a ->
  replace [c] [d] (a ++ c :: b) = a ++ d :: b.
Proof.
  induction a as [|x a IH]; intros H.
  - simpl. rewrite N.eqb_refl. simpl. now rewrite drop_0.
  - apply Forall_cons in H as [Hx H]. simpl.
    destruct (N.eqb_spec x c) as [->|_]; [congruence|]. simpl.
    now rewrite IH.
Qed.

(** X23: the platform badge turns only the first underscore of the
    platform text into a blank.  A text without underscore is shown as it
    is; in a text with underscores, what precedes the first one and what
    follows it are shown unchanged, further underscores included. *)
Theorem platform_badge_replaces_first_underscore (item : GeneratedContent.t) :
  (Forall (fun x => x <> 95%N) (GeneratedContent.platform item) ->
   ContentGallery.platformBadge item = GeneratedContent.platform item)
  /\ (forall a b : jsstring,
        GeneratedContent.platform item = a ++ js "_" ++ b ->
        Forall (fun x => x <> 95%N) a ->
        ContentGallery.platformBadge item = a ++ js " " ++ b).
Proof.
  unfold ContentGallery.platformBadge.
  change (js "_") with [95%N]. change (js " ") with [32%N]. split.
  - apply replace_unit_absent.
  - intros a b -> Ha. now apply replace_unit_first.
Qed.

Lemma platform_badge_replaces_first_underscore_witness :
  ContentGallery.platformBadge sampleVideo = js "instagram story"
  /\ ContentGallery.platformBadge
       (GeneratedContent.mk (js "3") image (js "a_b_c") (js "") (js "")
          (js "") (js "") (js "") [])
     = js "a b_c".
Proof.
  split.
  - apply (proj2 (platform_badge_replaces_first_underscore sampleVideo)
             (js "instagram") (js "story")); [reflexivity|].
    vm_compute. repeat constructor; discriminate.
  - apply (proj2 (platform_badge_replaces_first_underscore
                    (GeneratedContent.mk (js "3") image (js "a_b_c") (js "")
                       (js "") (js "") (js "") (js "") []))
             (js "a") (js "b_c")); [reflexivity|].
    vm_compute. repeat constructor; discriminate.
Defined.

(* ===================================================================== *)
(** * Reaching the generation form *)
(* ===================================================================== *)

Section Shortcut.

Variable env : Env.




End Shortcut.


